(** * Portfolio tracker and performance analysis: a shallow embedding

    The Python sources [portfolio_tracker.py] and
    [portfolio_performance_analysis.py] are embedded as Rocq functions.

    Numbers.  Every pandas column of the program holds float64 values.
    A float is modelled by [fl]: a finite value carried by an exact
    rational, the two infinities, and NaN.  The special values follow
    the IEEE 754 rules that numpy applies (x/0 is an infinity or NaN,
    NaN compares false with everything).  Rounding of finite values is
    not modelled, and the two zeros are not distinguished (a zero
    divisor acts as +0).

    Tables.  A DataFrame is a list of row records in row order; a
    Series is a list of [fl].  The pandas reductions used by the
    program ([sum], [mean], [std], [min], [cumprod], [expanding().max()],
    [pct_change], [dropna], [fillna], [groupby().agg]) are defined with
    their documented treatment of missing values. *)

From Stdlib Require Import ZArith QArith Qabs Lqa Lia String Sorted.
From stdpp Require Import base list gmap strings.

Local Open Scope Q_scope.

(** ** Floats *)

Inductive fl : Type :=
| Fin (q : Q)
| PInf
| NInf
| NaN.

Definition isnan (x : fl) : bool :=
  match x with NaN => true | _ => false end.

Definition notna (x : fl) : bool := negb (isnan x).

Definition is_fin (x : fl) : Prop :=
  match x with Fin _ => True | _ => False end.

(** Equality of floats up to the representation of the rational. *)
Definition feq (x y : fl) : Prop :=
  match x, y with
  | Fin p, Fin q => p == q
  | PInf, PInf => True
  | NInf, NInf => True
  | NaN, NaN => True
  | _, _ => False
  end.

Definition Qltb (p q : Q) : bool :=
  match p ?= q with Lt => true | _ => false end.

Definition Qzerob (p : Q) : bool :=
  match p ?= 0 with Eq => true | _ => false end.

Definition fneg (x : fl) : fl :=
  match x with
  | Fin q => Fin (- q)
  | PInf => NInf
  | NInf => PInf
  | NaN => NaN
  end.

Definition fabs (x : fl) : fl :=
  match x with
  | Fin q => Fin (Qabs q)
  | PInf | NInf => PInf
  | NaN => NaN
  end.

Definition fadd (x y : fl) : fl :=
  match x, y with
  | NaN, _ | _, NaN => NaN
  | Fin p, Fin q => Fin (p + q)
  | PInf, NInf | NInf, PInf => NaN
  | PInf, _ | _, PInf => PInf
  | NInf, _ | _, NInf => NInf
  end.

Definition fsub (x y : fl) : fl := fadd x (fneg y).

(** An infinity times [q]: NaN for zero, otherwise the sign rule. *)
Definition inf_times (pos : bool) (q : Q) : fl :=
  match q ?= 0 with
  | Eq => NaN
  | Gt => if pos then PInf else NInf
  | Lt => if pos then NInf else PInf
  end.

Definition fmul (x y : fl) : fl :=
  match x, y with
  | NaN, _ | _, NaN => NaN
  | Fin p, Fin q => Fin (p * q)
  | PInf, Fin q | Fin q, PInf => inf_times true q
  | NInf, Fin q | Fin q, NInf => inf_times false q
  | PInf, PInf | NInf, NInf => PInf
  | PInf, NInf | NInf, PInf => NInf
  end.

Definition fdiv (x y : fl) : fl :=
  match x, y with
  | NaN, _ | _, NaN => NaN
  | Fin p, Fin q =>
      if Qzerob q then
        match p ?= 0 with Eq => NaN | Gt => PInf | Lt => NInf end
      else Fin (p / q)
  | Fin _, (PInf | NInf) => Fin 0
  | PInf, Fin q => if Qltb q 0 then NInf else PInf
  | NInf, Fin q => if Qltb q 0 then PInf else NInf
  | (PInf | NInf), (PInf | NInf) => NaN
  end.

(** Comparisons; every comparison with NaN is false. *)
Definition flt (x y : fl) : bool :=
  match x, y with
  | NaN, _ | _, NaN => false
  | Fin p, Fin q => Qltb p q
  | NInf, NInf => false
  | NInf, _ => true
  | _, PInf => match x with PInf => false | _ => true end
  | _, _ => false
  end.

Definition fgt (x y : fl) : bool := flt y x.

Definition fle (x y : fl) : bool :=
  match x, y with
  | NaN, _ | _, NaN => false
  | _, _ => negb (flt y x)
  end.

Definition fz (z : Z) : fl := Fin (inject_Z z).

Declare Scope fl_scope.
Delimit Scope fl_scope with fl.
Bind Scope fl_scope with fl.
Infix "+" := fadd : fl_scope.
Infix "-" := fsub : fl_scope.
Infix "*" := fmul : fl_scope.
Infix "/" := fdiv : fl_scope.
Notation "- x" := (fneg x) : fl_scope.

(** Square root.  [Qsqrt] is a rational approximation from below with
    fifteen decimal digits, standing for the rounded [np.sqrt]; the
    proofs use only that it maps zero to zero. *)
Definition Qsqrt (q : Q) : Q :=
  let r := Qred q in
  let d := Zpos (Qden r) in
  Qmake (Z.sqrt (Qnum r * d * 10 ^ 30)) (Qden r * 10 ^ 15).

Definition fsqrt (x : fl) : fl :=
  match x with
  | Fin q => if Qltb q 0 then NaN else Fin (Qsqrt q)
  | PInf => PInf
  | NInf | NaN => NaN
  end.

(** ** pandas Series operations *)

Module Series.

Definition dropna (s : list fl) : list fl := List.filter notna s.

Definition fillna (v : fl) (s : list fl) : list fl :=
  List.map (fun x => if isnan x then v else x) s.

(** [Series.sum()] skips missing values and starts from zero. *)
Definition sum (s : list fl) : fl := fold_left fadd (dropna s) (Fin 0).

Definition count (s : list fl) : nat := length (dropna s).

Definition mean (s : list fl) : fl :=
  (sum s / fz (Z.of_nat (count s)))%fl.

(** [Series.std()]: sample standard deviation ([ddof = 1]), computed
    in two passes as pandas' [nanvar] does; NaN when fewer than two
    values are present. *)
Definition var (s : list fl) : fl :=
  let xs := dropna s in
  let n := length xs in
  if (n <=? 1)%nat then NaN
  else
    let avg := (fold_left fadd xs (Fin 0) / fz (Z.of_nat n))%fl in
    let sqr := List.map (fun x => ((avg - x) * (avg - x))%fl) xs in
    (fold_left fadd sqr (Fin 0) / fz (Z.of_nat n - 1))%fl.

Definition std (s : list fl) : fl := fsqrt (var s).

Definition min2 (a b : fl) : fl := if flt b a then b else a.
Definition max2 (a b : fl) : fl := if flt a b then b else a.

(** [Series.min()] and [Series.max()] skip missing values and give
    NaN on a series without values. *)
Definition min (s : list fl) : fl :=
  match dropna s with
  | [] => NaN
  | x :: xs => fold_left min2 xs x
  end.

Definition max (s : list fl) : fl :=
  match dropna s with
  | [] => NaN
  | x :: xs => fold_left max2 xs x
  end.

(** [Series.cumprod()]: a missing value stays missing and does not
    enter the running product. *)
Fixpoint cumprod_from (acc : fl) (s : list fl) : list fl :=
  match s with
  | [] => []
  | x :: xs =>
      if isnan x then NaN :: cumprod_from acc xs
      else let a := (acc * x)%fl in a :: cumprod_from a xs
  end.

Definition cumprod (s : list fl) : list fl := cumprod_from (Fin 1) s.

(** [Series.expanding().max()]: the maximum of the values seen so far,
    NaN while none has been seen. *)
Fixpoint expanding_max_from (cur : option fl) (s : list fl) : list fl :=
  match s with
  | [] => []
  | x :: xs =>
      let cur' :=
        if isnan x then cur
        else match cur with
             | None => Some x
             | Some m => Some (max2 m x)
             end in
      default NaN cur' :: expanding_max_from cur' xs
  end.

Definition expanding_max (s : list fl) : list fl := expanding_max_from None s.

(** Forward fill, applied by [pct_change] before it divides (the
    default [fill_method='pad']). *)
Fixpoint ffill_from (prev : fl) (s : list fl) : list fl :=
  match s with
  | [] => []
  | x :: xs =>
      let v := if isnan x then prev else x in
      v :: ffill_from v xs
  end.

Definition ffill (s : list fl) : list fl := ffill_from NaN s.

(** One step of a percentage change, [cur / prev - 1]. *)
Definition pct (prev cur : fl) : fl := (cur / prev - Fin 1)%fl.

Fixpoint pct_from (prev : fl) (s : list fl) : list fl :=
  match s with
  | [] => []
  | x :: xs => pct prev x :: pct_from x xs
  end.

(** [Series.pct_change()]: the first entry is missing. *)
Definition pct_change (s : list fl) : list fl :=
  match ffill s with
  | [] => []
  | x :: xs => NaN :: pct_from x xs
  end.

(** Last and first present value of a column, as [GroupBy.last] and
    [GroupBy.first] compute them. *)
Definition last_valid (s : list fl) : fl := List.last (dropna s) NaN.
Definition first_valid (s : list fl) : fl := List.hd NaN (dropna s).

End Series.

(** ** Calendar

    A [Timestamp] is a day number counted from 1970-01-01; the time of
    day plays no role in the program.  The civil date is recovered with
    the usual era computation on the proleptic Gregorian calendar. *)

Module Calendar.

Local Open Scope Z_scope.

Definition Timestamp := Z.

Definition days_from_civil (y m d : Z) : Timestamp :=
  let y' := if m <=? 2 then y - 1 else y in
  let era := y' / 400 in
  let yoe := y' - era * 400 in
  let mp := (m + 9) mod 12 in
  let doy := (153 * mp + 2) / 5 + d - 1 in
  let doe := yoe * 365 + yoe / 4 - yoe / 100 + doy in
  era * 146097 + doe - 719468.

Definition civil_from_days (z : Timestamp) : Z * Z * Z :=
  let z' := z + 719468 in
  let era := z' / 146097 in
  let doe := z' - era * 146097 in
  let yoe := (doe - doe / 1460 + doe / 36524 - doe / 146096) / 365 in
  let doy := doe - (365 * yoe + yoe / 4 - yoe / 100) in
  let mp := (5 * doy + 2) / 153 in
  let d := doy - (153 * mp + 2) / 5 + 1 in
  let m := if mp <? 10 then mp + 3 else mp - 9 in
  let y := yoe + era * 400 in
  ((if m <=? 2 then y + 1 else y), m, d).

Definition year (t : Timestamp) : Z := fst (fst (civil_from_days t)).
Definition month (t : Timestamp) : Z := snd (fst (civil_from_days t)).
Definition day (t : Timestamp) : Z := snd (civil_from_days t).

(** [Timestamp.weekday()]: Monday is 0; 1970-01-01 was a Thursday. *)
Definition weekday (t : Timestamp) : Z := (t + 3) mod 7.

(** [dt.to_period('M')]: pandas keeps a monthly period as the number
    of months since January 1970, one value per (year, month). *)
Definition to_period_M (t : Timestamp) : Z :=
  (year t - 1970) * 12 + (month t - 1).

(** [pd.date_range(start, end, freq='D')]: every day from [start]
    through [end], empty when [end] is earlier. *)
Definition date_range (start stop : Timestamp) : list Timestamp :=
  List.map (fun k => start + Z.of_nat k) (seq 0 (Z.to_nat (stop - start + 1))).

End Calendar.

(** ** Python values and exceptions *)

Module Py.

Inductive exn : Type :=
| TypeError
| ValueError
| IndexError.

Inductive result (A : Type) : Type :=
| Returned (a : A)
| Raised (e : exn).

Arguments Returned {A} a.
Arguments Raised {A} e.

#[global] Instance result_ret : MRet result := fun _ a => Returned a.
#[global] Instance result_bind : MBind result := fun _ _ f m =>
  match m with
  | Returned a => f a
  | Raised e => Raised e
  end.

(** The values a module-level setting of the tracker can hold. *)
Inductive val : Type :=
| Float (x : fl)
| Str (s : string).

(** [abs(v)] and [-v] are defined on numbers only. *)
Definition abs (v : val) : result val :=
  match v with
  | Float x => Returned (Float (fabs x))
  | Str _ => Raised TypeError
  end.

Definition neg (v : val) : result val :=
  match v with
  | Float x => Returned (Float (fneg x))
  | Str _ => Raised TypeError
  end.

(** [a < b] and [a > b]: numbers compare with numbers and strings with
    strings; a number against a string raises [TypeError]. *)
Definition lt (a b : val) : result bool :=
  match a, b with
  | Float x, Float y => Returned (flt x y)
  | Str s, Str t => Returned (String.ltb s t)
  | _, _ => Raised TypeError
  end.

Definition gt (a b : val) : result bool := lt b a.

(** A [for] loop whose body may raise, threading the loop's state. *)
Fixpoint for_each {A S : Type} (body : S -> A -> result S) (s : S) (l : list A)
  : result S :=
  match l with
  | [] => Returned s
  | x :: xs =>
      match body s x with
      | Returned s' => for_each body s' xs
      | Raised e => Raised e
      end
  end.

End Py.

(** ** Tables *)

(** Rows of the holdings sheet and of the valued portfolio. *)
Module Portfolio.

Record position : Type := {
  Stock_Symbol : string;
  Company_Name : string;
  Purchase_Date : Calendar.Timestamp;
  Purchase_Price : fl;
  Quantity : fl
}.

Record priced : Type := {
  holding : position;
  Current_Price : fl;
  Current_Value : fl;
  Total_Investment : fl;
  Unrealized_PL : fl;
  PL_Percentage : fl
}.

End Portfolio.

(** Rows of the [Performance_History] sheet. *)
Module History.

Record row : Type := {
  Date : Calendar.Timestamp;
  Total_Investment : fl;
  Current_Value : fl;
  Total_PL : fl;
  Total_PL_Percentage : fl
}.

End History.

(** ** portfolio_tracker.py *)

Module PortfolioTracker.

Import Portfolio.

(** The module-level setting as shipped: a placeholder string. *)
Definition ALERT_THRESHOLD : Py.val := Py.Str "Percentage".

Inductive alert_type : Type :=
| LOSS_ALERT
| PROFIT_ALERT.

Record alert : Type := {
  symbol : string;
  type : alert_type;
  pl_percentage : fl;
  current_price : fl
}.

Record daily_report : Type := {
  date : Calendar.Timestamp;
  total_investment : fl;
  total_current_value : fl;
  total_pl : fl;
  total_pl_percentage : fl;
  portfolio_data : list priced
}.

(** The column assignments of [calculate_portfolio_performance] on one
    row.  [Series.map(dict)] leaves NaN where the symbol has no entry. *)
Definition price_row (current_prices : gmap string fl) (p : position) : priced :=
  let cp := default NaN (current_prices !! Stock_Symbol p) in
  let cv := (cp * Quantity p)%fl in
  let ti := (Purchase_Price p * Quantity p)%fl in
  let upl := (cv - ti)%fl in
  {| holding := p;
     Current_Price := cp;
     Current_Value := cv;
     Total_Investment := ti;
     Unrealized_PL := upl;
     PL_Percentage := (upl / ti * fz 100)%fl |}.

(** [calculate_portfolio_performance]: [None] when no portfolio is
    loaded (the method prints and returns); otherwise the new value of
    [self.portfolio_data] and of [self.daily_report].  [today] is the
    day given by [datetime.now()]. *)
Definition calculate_portfolio_performance
    (today : Calendar.Timestamp)
    (portfolio : option (list position))
    (current_prices : gmap string fl)
  : option (list priced * daily_report) :=
  match portfolio with
  | None => None
  | Some rows =>
      let data := List.map (price_row current_prices) rows in
      let total_investment := Series.sum (List.map Total_Investment data) in
      let total_current_value := Series.sum (List.map Current_Value data) in
      let total_pl := (total_current_value - total_investment)%fl in
      let total_pl_percentage := (total_pl / total_investment * fz 100)%fl in
      Some (data,
            {| date := today;
               total_investment := total_investment;
               total_current_value := total_current_value;
               total_pl := total_pl;
               total_pl_percentage := total_pl_percentage;
               portfolio_data := data |})
  end.

(** The body of the loop of [check_alerts] on one row. *)
Definition check_row (threshold : Py.val) (alerts : list alert) (row : priced)
  : Py.result (list alert) :=
  let pl := Py.Float (PL_Percentage row) in
  a ← Py.abs pl;
  exceeds ← Py.gt a threshold;
  if (exceeds : bool) then
    nt ← Py.neg threshold;
    below ← Py.lt pl nt;
    let alert_type := if (below : bool) then LOSS_ALERT else PROFIT_ALERT in
    mret (alerts ++ [ {| symbol := Stock_Symbol (holding row);
                         type := alert_type;
                         pl_percentage := PL_Percentage row;
                         current_price := Current_Price row |} ])
  else mret alerts.

(** [check_alerts], with the module-level threshold as a parameter. *)
Definition check_alerts (threshold : Py.val) (data : list priced)
  : Py.result (list alert) :=
  Py.for_each (check_row threshold) [] data.

Record workbook : Type := {
  Portfolio_sheet : list (priced * Calendar.Timestamp);
  Daily_Summary_sheet : list History.row;
  Performance_History_sheet : list History.row
}.

Definition summary_row (r : daily_report) : History.row :=
  {| History.Date := date r;
     History.Total_Investment := total_investment r;
     History.Current_Value := total_current_value r;
     History.Total_PL := total_pl r;
     History.Total_PL_Percentage := total_pl_percentage r |}.

(** [update_portfolio_excel]: the three sheets written.
    [existing_history] is what [pd.read_excel] gives for the
    [Performance_History] sheet of the output file, [None] when that
    call raises (the bare [except] branch). *)
Definition update_portfolio_excel
    (now : Calendar.Timestamp)
    (existing_history : option (list History.row))
    (data : list priced)
    (report : daily_report)
  : workbook :=
  let summary_data := [summary_row report] in
  let updated_history :=
    match existing_history with
    | Some existing =>
        let new_row := [summary_row report] in
        existing ++ new_row
    | None => summary_data
    end in
  {| Portfolio_sheet := List.map (fun r => (r, now)) data;
     Daily_Summary_sheet := summary_data;
     Performance_History_sheet := updated_history |}.

(** *** Fetching prices and the daily run *)

(** The symbols the tracker asks prices for. *)
Definition PORTFOLIO_LIST : list string :=
  [ "TATAMOTORS"; "TATASTEEL"; "INFY"; "LICI"; "VEDL"; "EXIDEIND";
    "TATAPOWER"; "TRIDENT"; "ONGC"; "TATACHEM"; "NTPC"; "IRCTC";
    "IEX"; "HCLTECH" ]%string.

(** Python truth value of what [ticker.info.get('regularMarketPrice', 0)]
    gives: [None] and zero are false, every other number is true. *)
Definition truthy (v : option fl) : bool :=
  match v with
  | None => false
  | Some (Fin q) => negb (Qzerob q)
  | Some _ => true
  end.

(** One iteration of the loop of [get_current_prices].  [feed] stands
    for the market-data call on the ticker name: it returns the quoted
    value, or raises; the [except] clause swallows every exception. *)
Definition fetch_price (feed : string -> Py.result (option fl))
    (current_prices : gmap string fl) (symbol : string) : gmap string fl :=
  match feed (String.append symbol ".NS") with
  | Py.Returned current_price =>
      if truthy current_price then
        match current_price with
        | Some p => <[symbol := p]> current_prices
        | None => current_prices
        end
      else current_prices
  | Py.Raised _ => current_prices
  end.

(** [get_current_prices]: the new value of [self.current_prices]. *)
Definition get_current_prices (feed : string -> Py.result (option fl))
    (current_prices : gmap string fl) : gmap string fl :=
  fold_left (fetch_price feed) PORTFOLIO_LIST current_prices.

(** What the e-mail report is rendered from: the alerts and the daily
    report (which holds the valued table), and the chart attached to
    the message.  The HTML text itself is not modelled. *)
Record email : Type := {
  email_alerts : list alert;
  email_report : daily_report;
  email_chart : option string
}.

(** The outside world of a run: the messages delivered and the
    workbooks saved. *)
Record world : Type := {
  outbox : list email;
  saved : list workbook
}.

(** [run_daily_tracker].  The outcomes of the calls that leave the
    program are parameters: [loaded] is the table read from the
    holdings file ([None] when reading raises and
    [load_portfolio_data] returns [False]), [feed] the market-data
    call, [chart] the file name returned by [create_portfolio_charts]
    ([None] when it fails), [smtp_ok] and [excel_ok] whether sending
    and saving succeed (both methods catch their exceptions and return
    [False]), [existing_history] the history sheet read back from the
    output file.  The result is the value returned, or the exception
    that escapes, and the world after the run. *)
Definition run_daily_tracker
    (threshold : Py.val)
    (today now : Calendar.Timestamp)
    (loaded : option (list position))
    (feed : string -> Py.result (option fl))
    (current_prices : gmap string fl)
    (chart : option string)
    (smtp_ok excel_ok : bool)
    (existing_history : option (list History.row))
    (w : world)
  : Py.result bool * world :=
  match loaded with
  | None => (Py.Returned false, w)
  | Some rows =>
      let prices := get_current_prices feed current_prices in
      match calculate_portfolio_performance today (Some rows) prices with
      | None => (Py.Returned true, w)
      | Some (data, report) =>
          match check_alerts threshold data with
          | Py.Raised e => (Py.Raised e, w)
          | Py.Returned alerts =>
              let html_content :=
                {| email_alerts := alerts;
                   email_report := report;
                   email_chart := chart |} in
              let w1 :=
                if smtp_ok
                then {| outbox := outbox w ++ [html_content]; saved := saved w |}
                else w in
              let w2 :=
                if excel_ok
                then {| outbox := outbox w1;
                        saved := saved w1 ++
                          [update_portfolio_excel now existing_history data report] |}
                else w1 in
              (Py.Returned true, w2)
          end
      end
  end.

End PortfolioTracker.

(** Rows of the monthly table built by [calculate_monthly_returns]. *)
Module Monthly.

(** One group after [groupby('Year_Month').agg(...)]. *)
Record agg : Type := {
  agg_Year_Month : Z;
  agg_Date : Calendar.Timestamp;
  agg_Total_Investment : fl;
  agg_Current_Value : fl;
  agg_Total_PL : fl;
  agg_Total_PL_Percentage : fl
}.

Record row : Type := {
  Year_Month : Z;
  Date : Calendar.Timestamp;
  Total_Investment : fl;
  Current_Value : fl;
  Total_PL : fl;
  Total_PL_Percentage : fl;
  Monthly_Return : fl;
  Cumulative_Return : fl
}.

End Monthly.

(** ** portfolio_performance_analysis.py *)

Module PortfolioAnalyzer.

Import Portfolio.

Definition COMPANY_NAMES : gmap string string :=
  list_to_map
    [ ("TMCV", "Tata Motors Limited");
      ("TMPV", "Tata Motors Pass Vehicle Limited");
      ("TATASTEEL", "Tata Steel");
      ("INFY", "Infosys");
      ("LICI", "LIC");
      ("VEDL", "Vedanta");
      ("EXIDEIND", "Exide Industries");
      ("TATAPOWER", "Tata Power");
      ("TRIDENT", "Trident");
      ("ONGC", "ONGC");
      ("TATACHEM", "Tata Chemicals");
      ("NTPC", "NTPC");
      ("IRCTC", "IRCTC");
      ("IEX", "IEX");
      ("HCLTECH", "HCL Tech") ]%string.

(** *** The random generator

    [np.random.normal] draws from numpy's process-wide generator, which
    the program never seeds.  The generator is modelled by the sequence
    of standard normal deviates it is going to produce and the number
    already drawn; the sequence is an input of a run. *)
Record rng : Type := {
  deviates : nat -> fl;
  drawn : nat
}.

Definition normal (loc scale : fl) (g : rng) : fl * rng :=
  ((loc + scale * deviates g (drawn g))%fl,
   {| deviates := deviates g; drawn := S (drawn g) |}).

(** [Series.min()] of the purchase dates; [None] on an empty column. *)
Definition min_date (ds : list Calendar.Timestamp) : option Calendar.Timestamp :=
  match ds with
  | [] => None
  | d :: rest => Some (fold_left Z.min rest d)
  end.

(** The body of the loop over [market_dates]. *)
Definition synth_step (earliest_date : Calendar.Timestamp) (initial_investment : fl)
    (st : list History.row * rng) (date : Calendar.Timestamp)
  : list History.row * rng :=
  let '(performance_data, g) := st in
  if (earliest_date <=? date)%Z then
    let '(daily_return, g') := normal (Fin (8 # 10000)) (Fin (15 # 1000)) g in
    let days_since_start := (date - earliest_date)%Z in
    let trend_factor := (Fin 1 + fz days_since_start * Fin (1 # 10000))%fl in
    let current_portfolio_value :=
      (initial_investment * trend_factor * (Fin 1 + daily_return))%fl in
    let total_pl := (current_portfolio_value - initial_investment)%fl in
    let total_pl_percentage := (total_pl / initial_investment * fz 100)%fl in
    (performance_data ++
       [ {| History.Date := date;
            History.Total_Investment := initial_investment;
            History.Current_Value := current_portfolio_value;
            History.Total_PL := total_pl;
            History.Total_PL_Percentage := total_pl_percentage |} ],
     g')
  else (performance_data, g).

Definition market_dates (earliest_date end_date : Calendar.Timestamp)
  : list Calendar.Timestamp :=
  List.filter (fun d => (Calendar.weekday d <? 5)%Z)
    (Calendar.date_range earliest_date end_date).

(** [create_performance_data_from_portfolio]: the new value of
    [self.performance_history] ([None] when no portfolio is loaded and
    the method returns [False]) and the generator after the run.
    [end_date] is the day given by [datetime.now()].  An empty holdings
    table has no earliest date and the call raises. *)
Definition create_performance_data_from_portfolio
    (end_date : Calendar.Timestamp) (g : rng)
    (portfolio : option (list position))
  : Py.result (option (list History.row)) * rng :=
  match portfolio with
  | None => (Py.Returned None, g)
  | Some rows =>
      match min_date (List.map Purchase_Date rows) with
      | None => (Py.Raised Py.ValueError, g)
      | Some earliest_date =>
          let initial_investment :=
            Series.sum (List.map (fun p => (Purchase_Price p * Quantity p)%fl) rows) in
          let '(performance_data, g') :=
            fold_left (synth_step earliest_date initial_investment)
              (market_dates earliest_date end_date) ([], g) in
          (Py.Returned (Some performance_data), g')
      end
  end.

(** *** Monthly returns *)

(** The group keys in increasing order, each once ([groupby] sorts its
    keys). *)
Fixpoint insert_key (k : Z) (ks : list Z) : list Z :=
  match ks with
  | [] => [k]
  | k' :: rest =>
      if (k <? k')%Z then k :: ks
      else if (k =? k')%Z then ks
      else k' :: insert_key k rest
  end.

Definition group_keys (ks : list Z) : list Z := fold_right insert_key [] ks.

Definition group_rows (h : list History.row) (k : Z) : list History.row :=
  List.filter (fun r => (Calendar.to_period_M (History.Date r) =? k)%Z) h.

(** The aggregation of one group: ['first'] and ['last'] take the first
    and last present value of the column, in row order. *)
Definition agg_group (h : list History.row) (k : Z) : Monthly.agg :=
  let g := group_rows h k in
  {| Monthly.agg_Year_Month := k;
     Monthly.agg_Date := List.last (List.map History.Date g) 0%Z;
     Monthly.agg_Total_Investment :=
       Series.first_valid (List.map History.Total_Investment g);
     Monthly.agg_Current_Value :=
       Series.last_valid (List.map History.Current_Value g);
     Monthly.agg_Total_PL := Series.last_valid (List.map History.Total_PL g);
     Monthly.agg_Total_PL_Percentage :=
       Series.last_valid (List.map History.Total_PL_Percentage g) |}.

Definition with_return (a : Monthly.agg) (r : fl) : Monthly.row :=
  {| Monthly.Year_Month := Monthly.agg_Year_Month a;
     Monthly.Date := Monthly.agg_Date a;
     Monthly.Total_Investment := Monthly.agg_Total_Investment a;
     Monthly.Current_Value := Monthly.agg_Current_Value a;
     Monthly.Total_PL := Monthly.agg_Total_PL a;
     Monthly.Total_PL_Percentage := Monthly.agg_Total_PL_Percentage a;
     Monthly.Monthly_Return := r;
     Monthly.Cumulative_Return := Monthly.agg_Total_PL_Percentage a |}.

(** [calculate_monthly_returns]: the new value of [self.monthly_returns],
    [None] when there is no history (the method returns [False]).  The
    text columns ([Month_Name], [Month_Display]) render the date and are
    left out. *)
Definition calculate_monthly_returns (performance_history : option (list History.row))
  : option (list Monthly.row) :=
  match performance_history with
  | None => None
  | Some h =>
      let keys := group_keys (List.map (fun r => Calendar.to_period_M (History.Date r)) h) in
      let monthly_data := List.map (agg_group h) keys in
      let returns :=
        Series.fillna (Fin 0)
          (List.map (fun x => (x * fz 100)%fl)
             (Series.pct_change (List.map Monthly.agg_Total_PL_Percentage monthly_data))) in
      Some (zip_with with_return monthly_data returns)
  end.

(** *** Individual stocks *)

Record analysed : Type := {
  stock : priced;
  Weight : fl;
  Contribution : fl;
  Company : option string
}.

(** [sort_values('PL_Percentage', ascending=False)], missing values
    last: [r] goes before [e] when [e] has no value or is not greater. *)
Definition before (r e : analysed) : bool :=
  isnan (PL_Percentage (stock e))
  || (notna (PL_Percentage (stock r))
      && fle (PL_Percentage (stock e)) (PL_Percentage (stock r))).

Fixpoint insert_desc (r : analysed) (l : list analysed) : list analysed :=
  match l with
  | [] => [r]
  | e :: rest => if before r e then r :: l else e :: insert_desc r rest
  end.

Definition sort_desc (l : list analysed) : list analysed :=
  fold_right insert_desc [] l.

(** [analyze_stock_performance]: the new values of [self.portfolio_data]
    (in row order) and [self.stock_performance] (sorted), [None] when no
    portfolio is loaded. *)
Definition analyze_stock_performance (portfolio : option (list priced))
  : option (list analysed * list analysed) :=
  match portfolio with
  | None => None
  | Some data =>
      let value_sum := Series.sum (List.map Current_Value data) in
      let pl_sum := Series.sum (List.map Unrealized_PL data) in
      let rows :=
        List.map (fun r =>
          {| stock := r;
             Weight := (Current_Value r / value_sum * fz 100)%fl;
             Contribution := (Unrealized_PL r / pl_sum * fz 100)%fl;
             Company := COMPANY_NAMES !! Stock_Symbol (holding r) |}) data in
      Some (rows, sort_desc rows)
  end.

(** *** Risk metrics *)

(** The cumulative growth series, its running maximum and the drawdown
    series of [calculate_max_drawdown]. *)
Definition cumulative (h : list History.row) : list fl :=
  Series.cumprod
    (List.map (fun r => (Fin 1 + History.Total_PL_Percentage r / fz 100)%fl) h).

Definition running_max (h : list History.row) : list fl :=
  Series.expanding_max (cumulative h).

Definition dd (c m : fl) : fl := ((c - m) / m * fz 100)%fl.

Definition drawdown (h : list History.row) : list fl :=
  zip_with dd (cumulative h) (running_max h).

Definition calculate_max_drawdown (performance_history : option (list History.row))
  : fl :=
  match performance_history with
  | None => Fin 0
  | Some h => Series.min (drawdown h)
  end.

Record risk_metrics : Type := {
  Total_Return : fl;
  Annualized_Return : fl;
  Volatility : fl;
  Sharpe_Ratio : fl;
  Max_Drawdown : fl;
  Best_Day : fl;
  Worst_Day : fl;
  Positive_Days : fl
}.

(** [pct_change().dropna()] of the [Total_PL_Percentage] column. *)
Definition daily_returns_of (h : list History.row) : list fl :=
  Series.dropna (Series.pct_change (List.map History.Total_PL_Percentage h)).

(** The expression stored under ['Sharpe_Ratio']. *)
Definition sharpe_ratio (daily_returns : list fl) : fl :=
  ((Series.mean daily_returns * fz 252)
   / (Series.std daily_returns * fsqrt (fz 252)))%fl.

(** [s.iloc[-1]] raises [IndexError] on an empty series. *)
Definition iloc_last (s : list fl) : Py.result fl :=
  match s with
  | [] => Py.Raised Py.IndexError
  | x :: xs => Py.Returned (List.last xs x)
  end.

(** [calculate_risk_metrics]: [None] when there is no history. *)
Definition calculate_risk_metrics (performance_history : option (list History.row))
  : Py.result (option risk_metrics) :=
  match performance_history with
  | None => Py.Returned None
  | Some h =>
      let daily_returns := daily_returns_of h in
      total_return ← iloc_last (List.map History.Total_PL_Percentage h);
      mret (Some
        {| Total_Return := total_return;
           Annualized_Return := (Series.mean daily_returns * fz 252)%fl;
           Volatility := (Series.std daily_returns * fsqrt (fz 252))%fl;
           Sharpe_Ratio := sharpe_ratio daily_returns;
           Max_Drawdown := calculate_max_drawdown performance_history;
           Best_Day := (Series.max daily_returns * fz 100)%fl;
           Worst_Day := (Series.min daily_returns * fz 100)%fl;
           Positive_Days :=
             (fz (Z.of_nat (length (List.filter (fun x => fgt x (Fin 0)) daily_returns)))
              / fz (Z.of_nat (length daily_returns)) * fz 100)%fl |})
  end.

(** *** Loading the history and the script's [main] *)

(** [sort_values('Date')]: ascending by date.  Rows with the same date
    keep their order here; pandas leaves their order open. *)
Fixpoint insert_by_date (r : History.row) (l : list History.row)
  : list History.row :=
  match l with
  | [] => [r]
  | e :: rest =>
      if (History.Date r <=? History.Date e)%Z then r :: l
      else e :: insert_by_date r rest
  end.

Definition sort_by_date (h : list History.row) : list History.row :=
  fold_right insert_by_date [] h.

(** [load_performance_history] on a fresh analyzer: the new value of
    [self.performance_history] and the flag the method returns.
    [sheet] is what [pd.read_excel] gives for the history sheet, [None]
    when it raises: the attribute is then still [None] and the flag is
    [False].  After the attribute has been set, the method prints the
    date range with [strftime] of the earliest date; on a sheet without
    rows that date is [NaT], [strftime] raises, and the handler returns
    [False] as well. *)
Definition load_performance_history (sheet : option (list History.row))
  : option (list History.row) * bool :=
  match sheet with
  | None => (None, false)
  | Some rows =>
      let performance_history := sort_by_date rows in
      (Some performance_history,
       match performance_history with [] => false | _ :: _ => true end)
  end.

(** The history that [main] analyses: nothing when the holdings do not
    load ([main] returns at once), the stored history when
    [load_performance_history] returns [True], otherwise the synthetic
    one. *)
Definition main_history
    (sheet : option (list History.row))
    (end_date : Calendar.Timestamp) (g : rng)
    (portfolio : option (list position))
  : Py.result (option (list History.row)) * rng :=
  match portfolio with
  | None => (Py.Returned None, g)
  | Some rows =>
      match load_performance_history sheet with
      | (performance_history, true) => (Py.Returned performance_history, g)
      | (_, false) =>
          create_performance_data_from_portfolio end_date g (Some rows)
      end
  end.

(** The column assignments of [main] on one row of the holdings sheet,
    which brings its own [Total_Investment] column: the current price
    is taken to be the purchase price plus 5%. *)
Definition assume_growth (r : position * fl) : priced :=
  let cp := (Purchase_Price (fst r) * Fin (105 # 100))%fl in
  let cv := (cp * Quantity (fst r))%fl in
  let upl := (cv - snd r)%fl in
  {| holding := fst r;
     Current_Price := cp;
     Current_Value := cv;
     Total_Investment := snd r;
     Unrealized_PL := upl;
     PL_Percentage := (upl / snd r * fz 100)%fl |}.

End PortfolioAnalyzer.

(** * Specification-side definitions

    The properties below compare the program with what the
    specification says.  This module words the specification's notions
    and fixes the concrete inputs of its examples. *)

Module Spec.

Import Portfolio PortfolioTracker.

(** ** Alerts *)

(** The alerts as the specification words them: the positions whose
    absolute percentage exceeds the threshold, in input order, marked
    as a profit when the percentage is above the threshold and as a
    loss otherwise (that is, when it is below minus the threshold). *)
Definition spec_exceeds (t : fl) (r : priced) : bool :=
  fgt (fabs (PL_Percentage r)) t.

Definition spec_alert (t : fl) (r : priced) : alert :=
  {| symbol := Stock_Symbol (holding r);
     type := if fgt (PL_Percentage r) t then PROFIT_ALERT else LOSS_ALERT;
     pl_percentage := PL_Percentage r;
     current_price := Current_Price r |}.

Definition spec_alerts (t : fl) (data : list priced) : list alert :=
  List.map (spec_alert t) (List.filter (spec_exceeds t) data).

(** The alert that the loop of [check_alerts] appends for a row when
    the threshold is the number [t]. *)
Definition appended_alert (t : fl) (r : priced) : alert :=
  {| symbol := Stock_Symbol (holding r);
     type := if flt (PL_Percentage r) (fneg t) then LOSS_ALERT else PROFIT_ALERT;
     pl_percentage := PL_Percentage r;
     current_price := Current_Price r |}.



(** One share bought at 10000 and now quoted at [value]. *)
Definition at_pl (sym : string) (value : Z) : priced :=
  price_row {[ sym := fz value ]}
    {| Stock_Symbol := sym; Company_Name := sym; Purchase_Date := 0%Z;
       Purchase_Price := fz 10000; Quantity := fz 1 |}.

(** The three positions of the boundary example: exactly at +5.00%,
    at +5.01% and at -5.01%. *)
Definition boundary_data : list priced :=
  [at_pl "P500" 10500; at_pl "P501" 10501; at_pl "L501" 9499].

(** ** Valuation *)

(** A position has a price when the price mapping has an entry for its
    symbol. *)
Definition has_price (current_prices : gmap string fl) (r : priced) : bool :=
  bool_decide (is_Some (current_prices !! Stock_Symbol (holding r))).


(** The scenario of the specification: A and B are priced, C is not. *)
Definition scenario_position (sym : string) (price quantity : Z) : position :=
  {| Stock_Symbol := sym; Company_Name := sym; Purchase_Date := 0%Z;
     Purchase_Price := fz price; Quantity := fz quantity |}.

Definition scenario_positions : list position :=
  [scenario_position "A" 10 100; scenario_position "B" 20 100;
   scenario_position "C" 5 100].

Definition scenario_prices : gmap string fl :=
  {[ "A"%string := fz 12; "B"%string := fz 18 ]}.

(** ** Weights *)

(** Closeness of a float to a target, false for NaN and infinities. *)
Definition near (x : fl) (target eps : Q) : bool :=
  match x with
  | Fin q => negb (Qltb eps (Qabs (q - target)))
  | _ => false
  end.

Definition valid_price (r : PortfolioAnalyzer.analysed) : bool :=
  notna (Current_Price (PortfolioAnalyzer.stock r)).

Definition has_value (r : PortfolioAnalyzer.analysed) : bool :=
  notna (Current_Value (PortfolioAnalyzer.stock r)).

(** A position quoted at price zero: its current value is 0. *)
Definition worthless_data : list priced := [at_pl "Z" 0].

(** ** The history sheet *)



Definition snapshot (d : Calendar.Timestamp) (invested value : Z) : History.row :=
  {| History.Date := d;
     History.Total_Investment := fz invested;
     History.Current_Value := fz value;
     History.Total_PL := fz (value - invested);
     History.Total_PL_Percentage := (fz (value - invested) / fz invested * fz 100)%fl |}.

Definition report_of (d : Calendar.Timestamp) (invested value : Z) : daily_report :=
  {| date := d;
     total_investment := fz invested;
     total_current_value := fz value;
     total_pl := fz (value - invested);
     total_pl_percentage := (fz (value - invested) / fz invested * fz 100)%fl;
     portfolio_data := [] |}.

(** ** Synthetic history *)

(** A generator whose deviates are all [z], after [n] draws. *)
Definition constant_rng (z : fl) (n : nat) : PortfolioAnalyzer.rng :=
  {| PortfolioAnalyzer.deviates := fun _ => z; PortfolioAnalyzer.drawn := n |}.

(** One holding (10 shares bought at 100) purchased on day [d]. *)
Definition bought_on (d : Calendar.Timestamp) : list position :=
  [ {| Stock_Symbol := "A"; Company_Name := "A"; Purchase_Date := d;
       Purchase_Price := fz 100; Quantity := fz 10 |} ].

(** The row that [create_performance_data_from_portfolio] records for
    [date] when the generator hands out the deviate [z]. *)
Definition synth_row (earliest_date : Calendar.Timestamp) (initial_investment z : fl)
    (date : Calendar.Timestamp) : History.row :=
  let daily_return := (Fin (8 # 10000) + Fin (15 # 1000) * z)%fl in
  let trend_factor := (Fin 1 + fz (date - earliest_date) * Fin (1 # 10000))%fl in
  let value := (initial_investment * trend_factor * (Fin 1 + daily_return))%fl in
  {| History.Date := date;
     History.Total_Investment := initial_investment;
     History.Current_Value := value;
     History.Total_PL := (value - initial_investment)%fl;
     History.Total_PL_Percentage :=
       ((value - initial_investment) / initial_investment * fz 100)%fl |}.

(** ** Risk metrics *)

(** A history with the given cumulative P&L percentages on consecutive
    days from [start] (invested 100 throughout). *)
Definition pl_history (start : Calendar.Timestamp) (ps : list Z) : list History.row :=
  imap (fun i p =>
          {| History.Date := (start + Z.of_nat i)%Z;
             History.Total_Investment := fz 100;
             History.Current_Value := fz (100 + p);
             History.Total_PL := fz p;
             History.Total_PL_Percentage := fz p |}) ps.



(** A series that never falls from one entry to the next. *)
Fixpoint nondecreasing (s : list fl) : bool :=
  match s with
  | [] => true
  | x :: rest =>
      match rest with
      | [] => true
      | y :: _ => fle x y && nondecreasing rest
      end
  end.

(** A finite value that is not positive. *)
Definition nonpos (d : fl) : Prop :=
  match d with
  | Fin q => q <= 0
  | _ => False
  end.

(** ** Monthly returns *)

(** The month-over-month return, in percent, with a missing change
    counted as zero ([fillna(0)]). *)
Definition or_zero (x : fl) : fl := if isnan x then Fin 0 else x.

Definition month_over_month (prev cur : fl) : fl :=
  or_zero (Series.pct prev cur * fz 100)%fl.

Definition period_of (r : History.row) : Z :=
  Calendar.to_period_M (History.Date r).

Definition at_date (y m d : Z) (p : Z) : History.row :=
  {| History.Date := Calendar.days_from_civil y m d;
     History.Total_Investment := fz 100;
     History.Current_Value := fz (100 + p);
     History.Total_PL := fz p;
     History.Total_PL_Percentage := fz p |}.

(** All four numeric fields of a snapshot are present. *)
Definition present (r : History.row) : bool :=
  notna (History.Total_Investment r) && notna (History.Current_Value r)
  && notna (History.Total_PL r) && notna (History.Total_PL_Percentage r).

(** [r] is the last row of [h] in month [k]; [r] is the first one. *)
Definition last_of_month (h : list History.row) (k : Z) (r : History.row) : Prop :=
  exists front back,
    h = front ++ r :: back
    /\ period_of r = k
    /\ (forall r', In r' back -> period_of r' <> k).

Definition first_of_month (h : list History.row) (k : Z) (r : History.row) : Prop :=
  exists front back,
    h = front ++ r :: back
    /\ period_of r = k
    /\ (forall r', In r' front -> period_of r' <> k).

(** Two January snapshots with different investments, then February. *)
Definition topped_up_history : list History.row :=
  [snapshot (Calendar.days_from_civil 2025 1 30) 1000 1010;
   snapshot (Calendar.days_from_civil 2025 1 31) 2000 2040;
   snapshot (Calendar.days_from_civil 2025 2 28) 2000 2100].

(** The example of the specification: 31 January 2025 at 2% and
    28 February 2025 at 5%, after an earlier January snapshot at 1%. *)
Definition jan_feb_history : list History.row :=
  [at_date 2025 1 30 1; at_date 2025 1 31 2; at_date 2025 2 28 5].

(** ** Notions for the properties beyond the specification *)

(** The entry that [get_current_prices] leaves for a listed symbol: the
    quote when the feed returns a true value, otherwise the entry that
    was there before. *)
Definition entry_after (feed : string -> Py.result (option fl))
    (before : gmap string fl) (symbol : string) : option fl :=
  match feed (String.append symbol ".NS") with
  | Py.Returned (Some p) => if truthy (Some p) then Some p else before !! symbol
  | _ => before !! symbol
  end.

(** A feed that quotes INFY at 1550, answers 0 for LICI and fails for
    every other ticker. *)
Definition sample_feed (ticker : string) : Py.result (option fl) :=
  if String.eqb ticker "INFY.NS" then Py.Returned (Some (fz 1550))
  else if String.eqb ticker "LICI.NS" then Py.Returned (Some (fz 0))
  else Py.Raised Py.ValueError.

(** A position whose price, purchase price and quantity are finite
    numbers. *)
Definition fully_priced (prices : gmap string fl) (p : position) : Prop :=
  exists c pp q,
    prices !! Stock_Symbol p = Some (Fin c)
    /\ Purchase_Price p = Fin pp
    /\ Quantity p = Fin q.

Definition empty_world : world := {| outbox := []; saved := [] |}.

(** [a] is ranked no later than [b] by percentage: [b] has no
    percentage, or both have one and that of [b] is not greater. *)
Definition ranked (a b : PortfolioAnalyzer.analysed) : Prop :=
  PL_Percentage (PortfolioAnalyzer.stock b) = NaN
  \/ (PL_Percentage (PortfolioAnalyzer.stock a) <> NaN
      /\ fle (PL_Percentage (PortfolioAnalyzer.stock b))
             (PL_Percentage (PortfolioAnalyzer.stock a)) = true).

(** A current value that is missing or a finite number not below 0. *)
Definition nonneg_or_missing (x : fl) : Prop :=
  match x with
  | NaN => True
  | Fin q => 0 <= q
  | _ => False
  end.

(** A weight that is missing or lies between 0 and 100. *)
Definition share_or_missing (x : fl) : Prop :=
  match x with
  | NaN => True
  | Fin q => 0 <= q <= 100
  | _ => False
  end.

(** A finite percentage of at least -100, and a finite drawdown between
    -100 and 0. *)
Definition not_below_minus_100 (x : fl) : Prop :=
  match x with
  | Fin p => -100 <= p
  | _ => False
  end.

Definition drawdown_range (d : fl) : Prop :=
  match d with
  | Fin q => -100 <= q <= 0
  | _ => False
  end.

End Spec.

(** * Properties *)

(** ** Facts about floats *)

Lemma Qltb_lt (p q : Q) : Qltb p q = true <-> p < q.
Proof.
  unfold Qltb. rewrite Qlt_alt. destruct (p ?= q); split; congruence.
Qed.

Lemma Qltb_ge (p q : Q) : Qltb p q = false <-> q <= p.
Proof.
  split.
  - intros H. apply Qnot_lt_le. intros Hlt. apply Qltb_lt in Hlt. congruence.
  - intros H. destruct (Qltb p q) eqn:E; [|reflexivity].
    apply Qltb_lt in E. exfalso. apply (Qlt_not_le _ _ E H).
Qed.

Lemma Qzerob_eq (p : Q) : Qzerob p = true <-> p == 0.
Proof.
  unfold Qzerob. rewrite Qeq_alt. destruct (p ?= 0); split; congruence.
Qed.

Lemma Qzerob_neq (p : Q) : Qzerob p = false <-> ~ p == 0.
Proof.
  rewrite <- Qzerob_eq. destruct (Qzerob p); split; congruence.
Qed.

#[global] Instance feq_equiv : Equivalence feq.
Proof.
  split.
  - intros []; simpl; auto. reflexivity.
  - intros [] []; simpl; auto. intros H. symmetry. exact H.
  - intros [] [] []; simpl; auto; try contradiction. intros H1 H2.
    rewrite H1. exact H2.
Qed.

Lemma fdiv_fin (p q : Q) : ~ q == 0 -> (Fin p / Fin q)%fl = Fin (p / q).
Proof.
  intros H. simpl. apply Qzerob_neq in H. rewrite H. reflexivity.
Qed.

Lemma flt_fin (p q : Q) : flt (Fin p) (Fin q) = true <-> p < q.
Proof. apply Qltb_lt. Qed.

Lemma fle_fin (p q : Q) : fle (Fin p) (Fin q) = true <-> p <= q.
Proof.
  simpl. rewrite negb_true_iff. apply Qltb_ge.
Qed.

(** ** Alerts *)

Section Alerts.

Import Portfolio PortfolioTracker Spec.

Lemma check_row_shipped (alerts : list alert) (r : priced) :
  check_row ALERT_THRESHOLD alerts r = Py.Raised Py.TypeError.
Proof. reflexivity. Qed.

(** C2: with the threshold as shipped (the string "Percentage"),
    [check_alerts] raises [TypeError] on every portfolio that has at
    least one position, instead of returning a list of alerts. *)
Theorem check_alerts_shipped_raises (data : list priced) :
  data <> [] ->
  check_alerts ALERT_THRESHOLD data = Py.Raised Py.TypeError.
Proof.
  intros Hne. destruct data as [|r rest]; [congruence|].
  unfold check_alerts. cbn [Py.for_each]. rewrite check_row_shipped. reflexivity.
Qed.


Lemma check_row_float (t : fl) (alerts : list alert) (r : priced) :
  check_row (Py.Float t) alerts r
  = Py.Returned (alerts ++ (if spec_exceeds t r then [appended_alert t r] else [])).
Proof.
  unfold check_row, spec_exceeds, appended_alert. simpl.
  unfold Py.gt. simpl. unfold fgt.
  destruct (flt t (fabs (PL_Percentage r))); simpl.
  - reflexivity.
  - unfold mret, Py.result_ret. rewrite app_nil_r. reflexivity.
Qed.

Lemma check_alerts_from (t : fl) (data : list priced) (alerts : list alert) :
  Py.for_each (check_row (Py.Float t)) alerts data
  = Py.Returned
      (alerts ++ List.map (appended_alert t) (List.filter (spec_exceeds t) data)).
Proof.
  revert alerts. induction data as [|r rest IH]; intros alerts.
  - simpl. rewrite app_nil_r. reflexivity.
  - cbn [Py.for_each List.filter]. rewrite check_row_float. rewrite IH.
    destruct (spec_exceeds t r); simpl.
    + rewrite <- app_assoc. reflexivity.
    + rewrite app_nil_r. reflexivity.
Qed.





End Alerts.

Section AlertExamples.

Import Portfolio PortfolioTracker Spec.

Lemma check_alerts_shipped_raises_witness :
  boundary_data <> []
  /\ check_alerts ALERT_THRESHOLD boundary_data = Py.Raised Py.TypeError.
Proof.
  split; [discriminate|].
  apply (check_alerts_shipped_raises boundary_data). discriminate.
Defined.

(** Without positions the loop body never runs and nothing is raised. *)
Example check_alerts_shipped_empty :
  check_alerts ALERT_THRESHOLD [] = Py.Returned [].
Proof. reflexivity. Qed.


(** The boundary example: +5.00% is silent, +5.01% is a profit alert,
    -5.01% is a loss alert, in input order. *)
Example check_alerts_boundary :
  List.map (fun a => (symbol a, type a)) (spec_alerts (fz 5) boundary_data)
  = [("P501"%string, PROFIT_ALERT); ("L501"%string, LOSS_ALERT)].
Proof. vm_compute. reflexivity. Qed.

End AlertExamples.

(** ** Valuation *)

Section Valuation.

Import Portfolio PortfolioTracker Spec.

Lemma price_row_missing (prices : gmap string fl) (p : position) :
  prices !! Stock_Symbol p = None ->
  Current_Price (price_row prices p) = NaN
  /\ Current_Value (price_row prices p) = NaN.
Proof.
  intros H. unfold price_row. simpl. rewrite H. simpl. auto.
Qed.

Lemma dropna_priced (prices : gmap string fl) (rows : list position) :
  Series.dropna (List.map Current_Value (List.map (price_row prices) rows))
  = Series.dropna
      (List.map Current_Value
         (List.filter (has_price prices) (List.map (price_row prices) rows))).
Proof.
  induction rows as [|p rest IH]; [reflexivity|].
  cbn [List.map List.filter]. unfold has_price at 1.
  cbn [holding price_row]. case_bool_decide as Hp.
  - cbn [List.map]. unfold Series.dropna in *. cbn [List.filter].
    rewrite IH. reflexivity.
  - assert (Hn : prices !! Stock_Symbol p = None).
    { destruct (prices !! Stock_Symbol p) eqn:E; [|reflexivity].
      exfalso. apply Hp. eauto. }
    destruct (price_row_missing prices p Hn) as [_ Hv].
    unfold Series.dropna in *. cbn [List.filter]. rewrite Hv. simpl.
    exact IH.
Qed.

(** C5 (counterexample): position C of the scenario has no price, and
    its current value is NaN, which is not the value 0. *)
Lemma missing_price_not_zero :
  ~ (forall (prices : gmap string fl) (p : position),
       prices !! Stock_Symbol p = None ->
       feq (Current_Value (price_row prices p)) (Fin 0)).
Proof.
  intros H.
  specialize (H scenario_prices (scenario_position "C" 5 100)).
  vm_compute in H. apply H. reflexivity.
Qed.

(** C5 (amended): a position whose symbol has no entry in the price
    mapping gets a missing (NaN) current price and current value; the
    total current value is the sum of the current values of the
    positions that have a price, the total investment is the sum over
    all positions, and the total P&L is their difference. *)
Theorem missing_price_totals
    (today : Calendar.Timestamp) (rows : list position)
    (prices : gmap string fl) (data : list priced) (report : daily_report) :
  calculate_portfolio_performance today (Some rows) prices = Some (data, report) ->
  (forall r, In r data ->
     prices !! Stock_Symbol (holding r) = None ->
     Current_Price r = NaN /\ Current_Value r = NaN)
  /\ total_current_value report
     = Series.sum (List.map Current_Value (List.filter (has_price prices) data))
  /\ total_investment report = Series.sum (List.map Total_Investment data)
  /\ total_pl report = (total_current_value report - total_investment report)%fl.
Proof.
  unfold calculate_portfolio_performance. intros H.
  injection H as Hd Hr. subst data. subst report. cbn [total_current_value
    total_investment total_pl]. split; [|split; [|split]]; try reflexivity.
  - intros r Hin Hnone. apply in_map_iff in Hin as [p [<- _]].
    apply price_row_missing. exact Hnone.
  - unfold Series.sum. rewrite dropna_priced. reflexivity.
Qed.

Lemma missing_price_totals_witness :
  exists data report,
    calculate_portfolio_performance 0%Z (Some scenario_positions) scenario_prices
    = Some (data, report)
    /\ total_current_value report
       = Series.sum (List.map Current_Value
                       (List.filter (has_price scenario_prices) data)).
Proof.
  eexists. eexists. split; [reflexivity|].
  eapply (missing_price_totals 0%Z scenario_positions scenario_prices).
  reflexivity.
Defined.

(** The scenario: invested 3500, current value 3000 (C is skipped),
    P&L -500, that is -100/7 percent (about -14.29). *)
Example scenario_totals :
  match calculate_portfolio_performance 0%Z (Some scenario_positions) scenario_prices with
  | Some (data, report) =>
      List.map Current_Value data = [fz 1200; fz 1800; NaN]
      /\ total_investment report = fz 3500
      /\ total_current_value report = fz 3000
      /\ total_pl report = fz (-500)
      /\ feq (total_pl_percentage report) (Fin (-100 # 7))
  | None => False
  end.
Proof. vm_compute. repeat split; reflexivity. Qed.



(** The position with quantity -1: invested -10, valued -12. *)
Example invalid_position_values :
  match calculate_portfolio_performance 0%Z
          (Some [scenario_position "A" 10 (-1)]) scenario_prices with
  | Some (data, report) =>
      List.map Total_Investment data = [fz (-10)]
      /\ List.map Current_Value data = [fz (-12)]
      /\ total_pl report = fz (-2)
  | None => False
  end.
Proof. vm_compute. repeat split; reflexivity. Qed.

End Valuation.

(** ** The history sheet *)

Section HistorySheet.

Import PortfolioTracker Spec.





End HistorySheet.

(** ** Sums of series *)

Section Sums.

Lemma fold_fadd_fin (qs : list Q) (a : Q) :
  fold_left fadd (List.map Fin qs) (Fin a) = Fin (fold_left Qplus qs a).
Proof.
  revert a. induction qs as [|q rest IH]; intros a; [reflexivity|].
  simpl. apply IH.
Qed.

Lemma fadd_is_fin (x y : fl) (s : Q) :
  (x + y)%fl = Fin s -> exists a b, x = Fin a /\ y = Fin b.
Proof.
  destruct x, y; simpl; try discriminate. eauto.
Qed.

Lemma fold_fadd_is_fin (l : list fl) (acc : fl) (s : Q) :
  fold_left fadd l acc = Fin s ->
  exists a qs, acc = Fin a /\ l = List.map Fin qs.
Proof.
  revert acc. induction l as [|x rest IH]; intros acc H.
  - simpl in H. subst acc. exists s, []. auto.
  - simpl in H. destruct (IH _ H) as [a' [qs [Hacc Hrest]]].
    destruct (fadd_is_fin _ _ _ Hacc) as [a [b [-> ->]]].
    exists a, (b :: qs). subst rest. auto.
Qed.

Lemma dropna_map_fin (qs : list Q) :
  Series.dropna (List.map Fin qs) = List.map Fin qs.
Proof.
  induction qs as [|q rest IH]; [reflexivity|].
  unfold Series.dropna in *. simpl. rewrite IH. reflexivity.
Qed.

Lemma Qsum_shift (qs : list Q) (a : Q) :
  fold_left Qplus qs a == a + fold_left Qplus qs 0.
Proof.
  revert a. induction qs as [|q rest IH]; intros a; simpl; [lra|].
  rewrite (IH (a + q)). rewrite (IH (0 + q)). lra.
Qed.

Lemma Qsum_scaled (qs : list Q) (s : Q) :
  ~ s == 0 ->
  fold_left Qplus (List.map (fun q => q / s * 100) qs) 0
  == fold_left Qplus qs 0 / s * 100.
Proof.
  intros Hs. induction qs as [|q rest IH]; simpl.
  - field. exact Hs.
  - rewrite Qsum_shift. rewrite IH. rewrite (Qsum_shift rest (0 + q)).
    field. exact Hs.
Qed.

(** A finite [Series.sum] exposes the rationals behind the values that
    are present. *)
Lemma sum_fin_inv (l : list fl) (s : Q) :
  Series.sum l = Fin s ->
  exists qs, Series.dropna l = List.map Fin qs /\ fold_left Qplus qs 0 = s.
Proof.
  unfold Series.sum. intros H.
  destruct (fold_fadd_is_fin _ _ _ H) as [a [qs [_ Hl]]].
  exists qs. split; [exact Hl|].
  rewrite Hl in H. rewrite fold_fadd_fin in H. congruence.
Qed.

End Sums.

(** ** Weights *)

Section Weights.

Import Portfolio PortfolioAnalyzer Spec.

Lemma weights_of_present (data : list priced) (s : Q) :
  List.map Weight
    (List.filter has_value
       (List.map (fun r =>
          {| stock := r;
             Weight := (Current_Value r / Fin s * fz 100)%fl;
             Contribution :=
               (Unrealized_PL r / Series.sum (List.map Unrealized_PL data) * fz 100)%fl;
             Company := COMPANY_NAMES !! Stock_Symbol (holding r) |}) data))
  = List.map (fun v => (v / Fin s * fz 100)%fl)
      (Series.dropna (List.map Current_Value data)).
Proof.
  generalize (Series.sum (List.map Unrealized_PL data)). intros c.
  induction data as [|r rest IH]; [reflexivity|].
  unfold Series.dropna in *. cbn [List.map List.filter].
  unfold has_value at 1. cbn [stock].
  destruct (notna (Current_Value r)); cbn [List.map Weight]; rewrite IH; reflexivity.
Qed.

Lemma scaled_fin (qs : list Q) (s : Q) :
  ~ s == 0 ->
  List.map (fun v => (v / Fin s * fz 100)%fl) (List.map Fin qs)
  = List.map Fin (List.map (fun q => q / s * 100) qs).
Proof.
  intros Hs. induction qs as [|q rest IH]; [reflexivity|].
  cbn [List.map]. rewrite IH. rewrite fdiv_fin by exact Hs. reflexivity.
Qed.

(** C10 (counterexample): one position with a valid price of zero.  The
    total current value is 0, the weight is 0/0 = NaN, and the weights
    of the priced positions sum to 0, not to 100. *)
Lemma weights_of_worthless_portfolio :
  ~ (forall data rows sorted,
       existsb (fun r => notna (Current_Price r)) data = true ->
       analyze_stock_performance (Some data) = Some (rows, sorted) ->
       near (Series.sum (List.map Weight (List.filter valid_price rows)))
            100 (1 # 1000000) = true).
Proof.
  intros H.
  specialize (H worthless_data _ _ eq_refl eq_refl).
  vm_compute in H. discriminate.
Qed.

(** C10 (amended): when the total current value is finite and not
    zero, each position's weight is its current value divided by that
    total, times 100, and the weights of the positions that have a
    current value sum to 100 (exactly, in exact arithmetic). *)
Theorem weights_sum_to_100
    (data : list priced) (rows sorted : list analysed) (s : Q) :
  analyze_stock_performance (Some data) = Some (rows, sorted) ->
  Series.sum (List.map Current_Value data) = Fin s ->
  ~ s == 0 ->
  (forall r, In r rows -> Weight r = (Current_Value (stock r) / Fin s * fz 100)%fl)
  /\ feq (Series.sum (List.map Weight (List.filter has_value rows))) (fz 100)
  /\ near (Series.sum (List.map Weight (List.filter has_value rows)))
          100 (1 # 1000000) = true.
Proof.
  unfold analyze_stock_performance. intros H Hsum Hs.
  injection H as Hrows _. subst rows. rewrite Hsum.
  set (W := Series.sum (List.map Weight (List.filter has_value _))).
  assert (Hfeq : feq W (fz 100)).
  { subst W. rewrite weights_of_present.
    destruct (sum_fin_inv _ _ Hsum) as [qs [Hqs Htot]].
    rewrite Hqs. rewrite scaled_fin by exact Hs.
    unfold Series.sum. rewrite dropna_map_fin. rewrite fold_fadd_fin.
    simpl. rewrite Qsum_scaled by exact Hs. rewrite Htot. field. exact Hs. }
  split; [|split].
  - intros r Hin. apply in_map_iff in Hin as [p [<- _]]. reflexivity.
  - exact Hfeq.
  - destruct W as [q| | |]; simpl in Hfeq; try contradiction.
    unfold near. rewrite negb_true_iff. apply Qltb_ge. rewrite Hfeq.
    unfold Qle. simpl. lia.
Qed.

Lemma weights_sum_to_100_witness :
  exists rows sorted,
    analyze_stock_performance (Some boundary_data) = Some (rows, sorted)
    /\ feq (Series.sum (List.map Weight (List.filter has_value rows))) (fz 100).
Proof.
  eexists. eexists. split; [reflexivity|].
  eapply (weights_sum_to_100 boundary_data _ _ (inject_Z 30500)).
  - reflexivity.
  - reflexivity.
  - unfold Qeq. simpl. lia.
Defined.

End Weights.

(** ** Synthetic history *)

Section Synthesis.

Import Portfolio PortfolioAnalyzer Spec.

Lemma market_dates_later (earliest_date end_date : Calendar.Timestamp) :
  Forall (fun d => (earliest_date <= d)%Z) (market_dates earliest_date end_date).
Proof.
  unfold market_dates, Calendar.date_range. apply List.Forall_forall.
  intros d Hin. apply List.filter_In in Hin as [Hin _].
  apply in_map_iff in Hin as [k [<- _]]. lia.
Qed.

(** The loop records one row per date, each from the next deviate. *)
Lemma synth_fold (earliest_date : Calendar.Timestamp) (initial_investment : fl)
    (dates : list Calendar.Timestamp) (acc : list History.row) (g : rng) :
  Forall (fun d => (earliest_date <= d)%Z) dates ->
  fold_left (synth_step earliest_date initial_investment) dates (acc, g)
  = (acc ++ imap (fun i d =>
               synth_row earliest_date initial_investment
                 (deviates g (drawn g + i)) d) dates,
     {| deviates := deviates g; drawn := drawn g + length dates |}).
Proof.
  intros Hall. revert acc g.
  induction Hall as [|d rest Hd Hrest IH]; intros acc g.
  - simpl. rewrite app_nil_r. rewrite Nat.add_0_r. destruct g; reflexivity.
  - cbn [fold_left]. unfold synth_step at 2.
    apply Z.leb_le in Hd. rewrite Hd. unfold normal.
    rewrite IH. cbn [deviates drawn]. f_equal.
    + rewrite <- app_assoc. f_equal. cbn [app imap]. f_equal.
      * unfold synth_row. rewrite Nat.add_0_r. reflexivity.
      * apply imap_ext. intros i x _. simpl.
        replace (S (drawn g + i))%nat with (drawn g + S i)%nat by lia.
        reflexivity.
    + f_equal. simpl. lia.
Qed.




(** One run from Wednesday 2025-10-29 to Tuesday 2025-11-04: five
    market days, the weekend is skipped. *)
Example synthesis_market_days :
  match fst (create_performance_data_from_portfolio 20396%Z (constant_rng (Fin 0) 0)
               (Some (bought_on 20390%Z))) with
  | Py.Returned (Some h) =>
      List.map History.Date h = [20390; 20391; 20392; 20395; 20396]%Z
  | _ => False
  end.
Proof. vm_compute. reflexivity. Qed.

End Synthesis.

(** ** The Sharpe ratio *)

Section Sharpe.

Import PortfolioAnalyzer Spec.



Lemma inject_nat_nonzero (n : nat) : (0 < n)%nat -> ~ inject_Z (Z.of_nat n) == 0.
Proof.
  intros Hn H. unfold Qeq in H. simpl in H. lia.
Qed.










(** With a single return the sample deviation is missing and the ratio
    is NaN; a zero return throughout gives 0/0, NaN as well. *)
Example sharpe_of_single_return :
  sharpe_ratio [Fin 1] = NaN /\ sharpe_ratio [Fin 0; Fin 0] = NaN.
Proof. split; reflexivity. Qed.

End Sharpe.

(** ** Maximum drawdown *)

Section Drawdown.

Import PortfolioAnalyzer Spec.

Lemma dd_fin (c m : Q) :
  0 < m -> c <= m ->
  exists d, dd (Fin c) (Fin m) = Fin d /\ d <= 0 /\ (d == 0 <-> c == m).
Proof.
  intros Hm Hc. unfold dd. cbn [fsub fneg fadd].
  rewrite fdiv_fin by lra. cbn [fmul fz].
  eexists. split; [reflexivity|].
  assert (Hk : 0 < / m) by (apply Qinv_lt_0_compat; exact Hm).
  change (inject_Z 100) with 100. unfold Qdiv.
  set (k := / m) in *.
  assert (Hkm : k * m == 1) by (unfold k; field; lra).
  split; [nra|]. split; intros H.
  - assert (Hx : (c + - m) * (k * m) == 0) by nra. rewrite Hkm in Hx. lra.
  - assert (Hx : c + - m == 0) by lra. rewrite Hx. ring.
Qed.

Lemma max2_fin (m c : Q) :
  exists m', Series.max2 (Fin m) (Fin c) = Fin m'
             /\ m <= m' /\ c <= m' /\ (m' == m \/ m' == c).
Proof.
  unfold Series.max2. cbn [flt]. destruct (Qltb m c) eqn:E.
  - apply Qltb_lt in E. exists c.
    split; [reflexivity|]. split; [lra|]. split; [lra|]. right. reflexivity.
  - apply Qltb_ge in E. exists m.
    split; [reflexivity|]. split; [lra|]. split; [lra|]. left. reflexivity.
Qed.

(** The drawdown entries behind the first one: [a] is the running
    product so far and [m] the running maximum so far. *)
Lemma drawdown_tail (fs : list Q) (a m : Q) :
  0 < m ->
  let cs := Series.cumprod_from (Fin a) (List.map Fin fs) in
  let ms := Series.expanding_max_from (Some (Fin m)) cs in
  Forall nonpos (zip_with dd cs ms)
  /\ (m == a ->
      (Forall (fun d => feq d (Fin 0)) (zip_with dd cs ms)
       <-> nondecreasing (Fin a :: cs) = true)).
Proof.
  revert a m. induction fs as [|x rest IH]; intros a m Hm cs ms.
  - subst cs ms. simpl. split; [constructor|]. intros _. split; auto.
  - subst cs ms. cbn [List.map Series.cumprod_from isnan fmul
      Series.expanding_max_from].
    destruct (max2_fin m (a * x)) as [m' [Hmax [Hm1 [Hm2 Hm3]]]].
    rewrite !Hmax. cbn [default from_option zip_with]. unfold id.
    destruct (dd_fin (a * x) m') as [d [Hd [Hle Hz]]]; [lra|lra|].
    destruct (IH (a * x) m') as [Hnp Hiff]; [lra|].
    rewrite Hd. split.
    + constructor; [exact Hle|exact Hnp].
    + intros Hma. cbn [nondecreasing]. fold nondecreasing.
      rewrite andb_true_iff, fle_fin.
      rewrite List.Forall_cons_iff. cbn [feq]. rewrite Hz.
      split.
      * intros [H1 H2]. split; [lra|]. apply Hiff; [lra|exact H2].
      * intros [H1 H2]. assert (Hc : a * x == m') by (destruct Hm3; lra).
        split; [exact Hc|]. apply Hiff; [lra|exact H2].
Qed.

Lemma dropna_nonpos (l : list fl) : Forall nonpos l -> Series.dropna l = l.
Proof.
  induction 1 as [|x rest Hx _ IH]; [reflexivity|].
  unfold Series.dropna in *. cbn [List.filter].
  destruct x; simpl in Hx; try contradiction. simpl. rewrite IH. reflexivity.
Qed.

Lemma min_fold (l : list fl) (q0 : Q) :
  Forall nonpos l -> q0 <= 0 ->
  exists q, fold_left Series.min2 l (Fin q0) = Fin q
            /\ q <= 0
            /\ (q == 0 <-> q0 == 0 /\ Forall (fun d => feq d (Fin 0)) l).
Proof.
  intros H. revert q0. induction H as [|x rest Hx _ IH]; intros q0 Hq0.
  - exists q0. simpl. split; [reflexivity|]. split; [exact Hq0|].
    split; [intros Hz; split; [exact Hz|constructor]|intros [Hz _]; exact Hz].
  - destruct x as [d| | |]; simpl in Hx; try contradiction.
    cbn [fold_left]. unfold Series.min2 at 2. cbn [flt].
    destruct (Qltb d q0) eqn:E.
    + apply Qltb_lt in E. destruct (IH d Hx) as [q [Hq [Hle Hiff]]].
      exists q. split; [exact Hq|]. split; [exact Hle|]. rewrite Hiff.
      rewrite List.Forall_cons_iff. cbn [feq].
      split; [intros [H1 H2]; lra|intros [H1 [H2 H3]]; split; assumption].
    + apply Qltb_ge in E. destruct (IH q0 Hq0) as [q [Hq [Hle Hiff]]].
      exists q. split; [exact Hq|]. split; [exact Hle|]. rewrite Hiff.
      rewrite List.Forall_cons_iff. cbn [feq].
      split; [intros [H1 H2]; repeat split; try assumption; lra
             |intros [H1 [H2 H3]]; split; assumption].
Qed.

Lemma factors_fin (h : list History.row) :
  Forall (fun r => is_fin (History.Total_PL_Percentage r)) h ->
  exists fs,
    List.map (fun r => (Fin 1 + History.Total_PL_Percentage r / fz 100)%fl) h
    = List.map Fin fs.
Proof.
  induction 1 as [|r rest Hr _ [fs Hfs]].
  - exists []. reflexivity.
  - destruct (History.Total_PL_Percentage r) as [p| | |] eqn:E;
      simpl in Hr; try contradiction.
    exists ((1 + p / inject_Z 100) :: fs).
    cbn [List.map]. rewrite Hfs, E. reflexivity.
Qed.

(** C6 (counterexample): a first snapshot at -100% (no price was
    available that day) makes the cumulative series 0 throughout; every
    drawdown entry is 0/0 and the result is NaN, which is not at most 0. *)
Lemma max_drawdown_of_wiped_out_history :
  ~ (forall h, fle (calculate_max_drawdown (Some h)) (Fin 0) = true).
Proof.
  intros H. specialize (H (pl_history 20394%Z [-100; 0]%Z)).
  vm_compute in H. discriminate.
Qed.

(** C6 (amended): for a history of finite percentages whose first
    snapshot is above -100%, the maximum drawdown is a finite value, it
    is at most 0, and it equals 0 exactly when the cumulative growth
    series never falls. *)
Theorem max_drawdown_bound (r0 : History.row) (rest : list History.row) :
  Forall (fun r => is_fin (History.Total_PL_Percentage r)) (r0 :: rest) ->
  flt (fz (-100)) (History.Total_PL_Percentage r0) = true ->
  exists q,
    calculate_max_drawdown (Some (r0 :: rest)) = Fin q
    /\ q <= 0
    /\ (q == 0 <-> nondecreasing (cumulative (r0 :: rest)) = true).
Proof.
  intros Hfin Hfirst.
  apply List.Forall_cons_iff in Hfin as [Hr0 Hrest].
  destruct (factors_fin rest Hrest) as [fs Hfs].
  destruct (History.Total_PL_Percentage r0) as [p0| | |] eqn:E0;
    simpl in Hr0; try contradiction.
  apply flt_fin in Hfirst. change (inject_Z (-100)) with (-100) in Hfirst.
  unfold calculate_max_drawdown.
  change (drawdown (r0 :: rest))
    with (zip_with dd (cumulative (r0 :: rest)) (running_max (r0 :: rest))).
  unfold running_max, cumulative, Series.cumprod, Series.expanding_max.
  cbn [List.map]. rewrite Hfs, E0.
  change (Fin 1 + Fin p0 / fz 100)%fl with (Fin (1 + p0 / 100)).
  cbn [Series.cumprod_from isnan fmul Series.expanding_max_from
       default from_option zip_with]. unfold id.
  set (c0 := 1 * (1 + p0 / 100)).
  assert (Hc0 : 0 < c0).
  { unfold c0. assert (0 < 100 + p0) by lra.
    assert (Heq : 1 * (1 + p0 / 100) == (100 + p0) / 100) by field.
    rewrite Heq. apply Qlt_shift_div_l; lra. }
  destruct (dd_fin c0 c0) as [d0 [Hd0 [Hle0 Hz0]]]; [exact Hc0|lra|].
  destruct (drawdown_tail fs c0 c0 Hc0) as [Hnp Hiff].
  rewrite Hd0. unfold Series.min.
  rewrite dropna_nonpos by (constructor; [exact Hle0|exact Hnp]).
  destruct (min_fold _ d0 Hnp Hle0) as [q [Hq [Hle Hqz]]].
  exists q. split; [exact Hq|]. split; [exact Hle|].
  rewrite Hqz, Hz0, (Hiff ltac:(reflexivity)).
  split; [intros [_ H]; exact H|intros H; split; [reflexivity|exact H]].
Qed.

Lemma max_drawdown_bound_witness :
  exists q,
    calculate_max_drawdown (Some (pl_history 20394%Z [10; -50; 20]%Z)) = Fin q
    /\ q <= 0.
Proof.
  destruct (max_drawdown_bound
              (hd (snapshot 0%Z 100 100) (pl_history 20394%Z [10; -50; 20]%Z))
              (tl (pl_history 20394%Z [10; -50; 20]%Z)))
    as [q [Hq [Hle _]]].
  - repeat constructor.
  - reflexivity.
  - exists q. split; [exact Hq|exact Hle].
Defined.

(** The percentages 10, -50, 20 give the growth series 1.1, 0.55, 0.66
    and a maximum drawdown of -50; a series that starts below -100% can
    fall and still report 0. *)
Example max_drawdown_examples :
  feq (calculate_max_drawdown (Some (pl_history 20394%Z [10; -50; 20]%Z)))
      (Fin (-50))
  /\ feq (calculate_max_drawdown (Some (pl_history 20394%Z [-200; 50]%Z))) (Fin 0)
  /\ nondecreasing (cumulative (pl_history 20394%Z [-200; 50]%Z)) = false.
Proof. vm_compute. repeat split; reflexivity. Qed.

End Drawdown.

(** ** Monthly returns *)

Section MonthlyReturns.

Import PortfolioAnalyzer Spec.

Lemma insert_key_in (k x : Z) (ks : list Z) :
  In x (insert_key k ks) <-> x = k \/ In x ks.
Proof.
  induction ks as [|k' rest IH]; simpl.
  - intuition.
  - destruct (k <? k')%Z eqn:E1; [simpl; intuition|].
    destruct (k =? k')%Z eqn:E2.
    + apply Z.eqb_eq in E2. subst k'. simpl. intuition.
    + simpl. rewrite IH. intuition.
Qed.

Lemma insert_key_sorted (k : Z) (ks : list Z) :
  Sorted Z.lt ks -> Sorted Z.lt (insert_key k ks).
Proof.
  induction 1 as [|k' rest Hs IH Hhd]; simpl.
  - repeat constructor.
  - destruct (k <? k')%Z eqn:E1.
    + apply Z.ltb_lt in E1. repeat constructor; assumption.
    + destruct (k =? k')%Z eqn:E2; [constructor; assumption|].
      apply Z.ltb_ge in E1. apply Z.eqb_neq in E2.
      constructor; [exact IH|].
      destruct rest as [|k'' rest']; simpl.
      * constructor. lia.
      * inversion Hhd; subst.
        destruct (k <? k'')%Z; [constructor; lia|].
        destruct (k =? k'')%Z; constructor; assumption.
Qed.

Lemma group_keys_in (x : Z) (l : list Z) : In x (group_keys l) <-> In x l.
Proof.
  induction l as [|k rest IH]; simpl; [tauto|].
  rewrite insert_key_in, IH. intuition.
Qed.

Lemma group_keys_sorted (l : list Z) : Sorted Z.lt (group_keys l).
Proof.
  induction l as [|k rest IH]; simpl; [constructor|].
  apply insert_key_sorted. exact IH.
Qed.

(** The last row that passes a filter splits the table. *)
Lemma filter_last_split {A : Type} (f : A -> bool) (l : list A) (x d : A) :
  In x l -> f x = true ->
  exists front r back,
    l = front ++ r :: back
    /\ f r = true
    /\ (forall y, In y back -> f y = false)
    /\ List.last (List.filter f l) d = r.
Proof.
  revert x. induction l as [|a rest IH]; intros x Hin Hx; [contradiction|].
  destruct (existsb f rest) eqn:E.
  - apply existsb_exists in E as [y [Hy Hfy]].
    destruct (IH y Hy Hfy) as [front [r [back [Hl [Hr [Hback Hlast]]]]]].
    exists (a :: front), r, back. split; [rewrite Hl; reflexivity|].
    split; [exact Hr|]. split; [exact Hback|].
    cbn [List.filter]. destruct (f a); [|exact Hlast].
    assert (Hne : List.filter f rest <> []).
    { intros Hnil. assert (Hiny : In y (List.filter f rest))
        by (apply List.filter_In; auto). rewrite Hnil in Hiny. contradiction. }
    destruct (List.filter f rest) as [|b more] eqn:Ef; [congruence|].
    exact Hlast.
  - assert (Hnone : forall y, In y rest -> f y = false).
    { intros y Hy. destruct (f y) eqn:Efy; [|reflexivity].
      assert (existsb f rest = true) by (apply existsb_exists; eauto).
      congruence. }
    assert (Hxa : x = a).
    { destruct Hin as [->|Hin]; [reflexivity|].
      rewrite (Hnone x Hin) in Hx. discriminate. }
    subst x. exists [], a, rest. split; [reflexivity|]. split; [exact Hx|].
    split; [exact Hnone|]. cbn [List.filter]. rewrite Hx.
    assert (Hnil : List.filter f rest = []).
    { clear -Hnone. induction rest as [|b more IH]; [reflexivity|].
      cbn [List.filter]. rewrite (Hnone b) by (left; reflexivity).
      apply IH. intros y Hy. apply Hnone. right. exact Hy. }
    rewrite Hnil. reflexivity.
Qed.

Lemma last_map {A B : Type} (g : A -> B) (l : list A) (d : A) (e : B) :
  l <> [] -> List.last (List.map g l) e = g (List.last l d).
Proof.
  induction l as [|a rest IH]; intros Hne; [congruence|].
  destruct rest as [|b more]; [reflexivity|].
  change (List.last (g b :: List.map g more) e = g (List.last (b :: more) d)).
  apply IH. discriminate.
Qed.

Lemma dropna_present (l : list fl) :
  Forall (fun x => notna x = true) l -> Series.dropna l = l.
Proof.
  induction 1 as [|x rest Hx _ IH]; [reflexivity|].
  unfold Series.dropna in *. cbn [List.filter]. rewrite Hx, IH. reflexivity.
Qed.

Lemma ffill_present (l : list fl) (prev : fl) :
  Forall (fun x => notna x = true) l -> Series.ffill_from prev l = l.
Proof.
  intros H. revert prev. induction H as [|x rest Hx _ IH]; intros prev;
    [reflexivity|].
  cbn [Series.ffill_from]. unfold notna in Hx. apply negb_true_iff in Hx.
  rewrite Hx, IH. reflexivity.
Qed.

Lemma pct_from_length (ps : list fl) (p0 : fl) :
  length (Series.pct_from p0 ps) = length ps.
Proof.
  revert p0. induction ps as [|p rest IH]; intros p0; simpl; [reflexivity|].
  rewrite IH. reflexivity.
Qed.

Lemma pct_from_lookup (ps : list fl) (p0 x y : fl) (i : nat) :
  (p0 :: ps) !! i = Some x -> (p0 :: ps) !! S i = Some y ->
  Series.pct_from p0 ps !! i = Some (Series.pct x y).
Proof.
  revert p0 i. induction ps as [|p rest IH]; intros p0 i Hx Hy.
  - simpl in Hy. rewrite lookup_nil in Hy. discriminate.
  - destruct i as [|i]; simpl in *.
    + congruence.
    + apply IH; assumption.
Qed.

Lemma lookup_map {A B : Type} (g : A -> B) (l : list A) (i : nat) :
  List.map g l !! i = option_map g (l !! i).
Proof.
  revert i. induction l as [|a rest IH]; intros i; [reflexivity|].
  destruct i as [|i]; [reflexivity|]. simpl. apply IH.
Qed.

Lemma zip_with_in {A B C : Type} (f : A -> B -> C) (l1 : list A) (l2 : list B) (c : C) :
  In c (zip_with f l1 l2) -> exists a b, In a l1 /\ In b l2 /\ c = f a b.
Proof.
  revert l2. induction l1 as [|a rest IH]; intros l2 Hin; [contradiction|].
  destruct l2 as [|b more]; [contradiction|].
  destruct Hin as [<-|Hin].
  - exists a, b. simpl. auto.
  - destruct (IH more Hin) as [a' [b' [Ha [Hb Hc]]]].
    exists a', b'. simpl. auto.
Qed.

Lemma map_zip_with_l {A B C D : Type} (f : A -> B -> C) (g : C -> D) (g' : A -> D)
    (l1 : list A) (l2 : list B) :
  (forall a b, g (f a b) = g' a) ->
  length l2 = length l1 ->
  List.map g (zip_with f l1 l2) = List.map g' l1.
Proof.
  intros Hg. revert l2. induction l1 as [|a rest IH]; intros l2 Hlen;
    [reflexivity|].
  destruct l2 as [|b more]; [discriminate|].
  simpl. rewrite Hg, IH; [reflexivity|]. simpl in Hlen. lia.
Qed.

Lemma filter_first_split {A : Type} (f : A -> bool) (l : list A) (x d : A) :
  In x l -> f x = true ->
  exists front r back,
    l = front ++ r :: back
    /\ f r = true
    /\ (forall y, In y front -> f y = false)
    /\ List.hd d (List.filter f l) = r.
Proof.
  induction l as [|a rest IH]; intros Hin Hx; [contradiction|].
  destruct (f a) eqn:Efa.
  - exists [], a, rest. split; [reflexivity|]. split; [exact Efa|].
    split; [intros y []|]. cbn [List.filter]. rewrite Efa. reflexivity.
  - assert (Hrest : In x rest).
    { destruct Hin as [->|Hin]; [congruence|exact Hin]. }
    destruct (IH Hrest Hx) as [front [r [back [Hl [Hr [Hfront Hhd]]]]]].
    exists (a :: front), r, back. split; [rewrite Hl; reflexivity|].
    split; [exact Hr|]. split.
    + intros y [<-|Hy]; [exact Efa|apply Hfront; exact Hy].
    + cbn [List.filter]. rewrite Efa. exact Hhd.
Qed.

Lemma hd_map {A B : Type} (g : A -> B) (l : list A) (d : A) (e : B) :
  l <> [] -> List.hd e (List.map g l) = g (List.hd d l).
Proof.
  destruct l as [|a rest]; intros Hne; [congruence|reflexivity].
Qed.

Lemma last_valid_column (col : History.row -> fl) (g : list History.row)
    (x : History.row) :
  g <> [] -> Forall (fun r => notna (col r) = true) g ->
  Series.last_valid (List.map col g) = col (List.last g x).
Proof.
  intros Hne Hall. unfold Series.last_valid. rewrite dropna_present.
  - apply last_map. exact Hne.
  - apply List.Forall_forall. intros p Hp. apply in_map_iff in Hp as [r [<- Hr]].
    rewrite List.Forall_forall in Hall. apply Hall. exact Hr.
Qed.

Lemma first_valid_column (col : History.row -> fl) (g : list History.row)
    (x : History.row) :
  g <> [] -> Forall (fun r => notna (col r) = true) g ->
  Series.first_valid (List.map col g) = col (List.hd x g).
Proof.
  intros Hne Hall. unfold Series.first_valid. rewrite dropna_present.
  - apply hd_map. exact Hne.
  - apply List.Forall_forall. intros p Hp. apply in_map_iff in Hp as [r [<- Hr]].
    rewrite List.Forall_forall in Hall. apply Hall. exact Hr.
Qed.

Lemma present_fields (r : History.row) :
  present r = true ->
  notna (History.Total_Investment r) = true
  /\ notna (History.Current_Value r) = true
  /\ notna (History.Total_PL r) = true
  /\ notna (History.Total_PL_Percentage r) = true.
Proof.
  unfold present. rewrite !andb_true_iff. tauto.
Qed.

Lemma group_present (h : list History.row) (k : Z) (col : History.row -> fl) :
  Forall (fun r => present r = true) h ->
  (forall r, present r = true -> notna (col r) = true) ->
  Forall (fun r => notna (col r) = true) (group_rows h k).
Proof.
  intros Hall Hcol. apply List.Forall_forall. intros r Hr.
  apply List.filter_In in Hr as [Hr _].
  rewrite List.Forall_forall in Hall. apply Hcol, Hall. exact Hr.
Qed.

(** The aggregate of month [k]: date, value, P&L and percentage of the
    last row of the month, investment of its first row. *)
Lemma agg_group_rows (h : list History.row) (k : Z) (x : History.row) :
  Forall (fun r => present r = true) h ->
  In x h -> period_of x = k ->
  exists r_last r_first,
    last_of_month h k r_last
    /\ first_of_month h k r_first
    /\ Monthly.agg_Date (agg_group h k) = History.Date r_last
    /\ Monthly.agg_Current_Value (agg_group h k) = History.Current_Value r_last
    /\ Monthly.agg_Total_PL (agg_group h k) = History.Total_PL r_last
    /\ Monthly.agg_Total_PL_Percentage (agg_group h k)
       = History.Total_PL_Percentage r_last
    /\ Monthly.agg_Total_Investment (agg_group h k)
       = History.Total_Investment r_first.
Proof.
  intros Hpresent Hin Hk.
  set (f := fun r : History.row => (Calendar.to_period_M (History.Date r) =? k)%Z).
  assert (Hfx : f x = true) by (apply Z.eqb_eq; exact Hk).
  destruct (filter_last_split f h x x Hin Hfx)
    as [front [r [back [Hh [Hr [Hback Hlast]]]]]].
  destruct (filter_first_split f h x x Hin Hfx)
    as [front' [r1 [back' [Hh' [Hr1 [Hfront Hhd]]]]]].
  exists r, r1.
  split.
  { exists front, back. split; [exact Hh|]. split; [apply Z.eqb_eq; exact Hr|].
    intros r' Hr'. apply Z.eqb_neq. apply Hback. exact Hr'. }
  split.
  { exists front', back'. split; [exact Hh'|]. split; [apply Z.eqb_eq; exact Hr1|].
    intros r' Hr'. apply Z.eqb_neq. apply Hfront. exact Hr'. }
  assert (Hne : group_rows h k <> []).
  { intros Hnil. assert (Hx : In x (group_rows h k))
      by (apply List.filter_In; auto). rewrite Hnil in Hx. contradiction. }
  change (List.filter f h) with (group_rows h k) in Hlast, Hhd.
  unfold agg_group.
  cbn [Monthly.agg_Date Monthly.agg_Current_Value Monthly.agg_Total_PL
       Monthly.agg_Total_PL_Percentage Monthly.agg_Total_Investment].
  rewrite (last_map History.Date _ x) by exact Hne.
  rewrite (last_valid_column History.Current_Value _ x Hne)
    by (apply group_present; [exact Hpresent|intros; apply present_fields; assumption]).
  rewrite (last_valid_column History.Total_PL _ x Hne)
    by (apply group_present; [exact Hpresent|intros; apply present_fields; assumption]).
  rewrite (last_valid_column History.Total_PL_Percentage _ x Hne)
    by (apply group_present; [exact Hpresent|intros; apply present_fields; assumption]).
  rewrite (first_valid_column History.Total_Investment _ x Hne)
    by (apply group_present; [exact Hpresent|intros; apply present_fields; assumption]).
  rewrite Hlast, Hhd. auto.
Qed.

Lemma pct_change_present (pls : list fl) :
  Forall (fun x => notna x = true) pls ->
  Series.pct_change pls
  = match pls with
    | [] => []
    | p0 :: ps => NaN :: Series.pct_from p0 ps
    end.
Proof.
  intros H. unfold Series.pct_change, Series.ffill.
  rewrite ffill_present by exact H. reflexivity.
Qed.

Lemma ffill_length (l : list fl) (prev : fl) :
  length (Series.ffill_from prev l) = length l.
Proof.
  revert prev. induction l as [|x rest IH]; intros prev; [reflexivity|].
  simpl. rewrite IH. reflexivity.
Qed.

Lemma pct_change_length (l : list fl) : length (Series.pct_change l) = length l.
Proof.
  unfold Series.pct_change, Series.ffill.
  rewrite <- (ffill_length l NaN).
  destruct (Series.ffill_from NaN l) as [|x rest]; [reflexivity|].
  simpl. rewrite pct_from_length. reflexivity.
Qed.

Lemma pct_change_head (l : list fl) (x : fl) (rest : list fl) :
  Series.pct_change l = x :: rest -> x = NaN.
Proof.
  unfold Series.pct_change. destruct (Series.ffill l); [discriminate|].
  congruence.
Qed.

(** C1 (counterexample): two January snapshots, invested 1000 on the
    30th and 2000 on the 31st.  The January row carries the investment
    1000 of the first snapshot, so it is not the last snapshot of the
    month. *)
Lemma monthly_row_is_not_last_snapshot :
  ~ (forall h ms,
       Forall (fun r => present r = true) h ->
       calculate_monthly_returns (Some h) = Some ms ->
       forall m, In m ms ->
         exists r,
           last_of_month h (Monthly.Year_Month m) r
           /\ Monthly.Date m = History.Date r
           /\ Monthly.Total_Investment m = History.Total_Investment r
           /\ Monthly.Current_Value m = History.Current_Value r
           /\ Monthly.Total_PL m = History.Total_PL r
           /\ Monthly.Total_PL_Percentage m = History.Total_PL_Percentage r).
Proof.
  intros H.
  destruct (calculate_monthly_returns (Some topped_up_history)) as [ms|] eqn:E;
    [|vm_compute in E; discriminate].
  specialize (H topped_up_history ms ltac:(repeat constructor) E).
  vm_compute in E. injection E as <-.
  specialize (H _ (or_introl eq_refl)).
  destruct H as [r [[front [back [Hh [Hk Hback]]]] [_ [Hti _]]]].
  cbn [Monthly.Year_Month Monthly.Total_Investment] in Hk, Hback, Hti.
  destruct front as [|a [|b [|c front]]]; cbn [app] in Hh.
  - injection Hh as <- <-.
    apply (Hback _ (or_introl eq_refl)). reflexivity.
  - injection Hh as _ <- _. vm_compute in Hti. discriminate.
  - injection Hh as _ _ <- _. vm_compute in Hk. discriminate.
  - injection Hh as _ _ _ Hnil. destruct front; discriminate.
Qed.

(** C1 (amended): [calculate_monthly_returns] yields the months in
    increasing order, one per (year, month) that occurs in the history,
    and the first month's return is 0.  When the fields of the history
    are all present, each month carries the date, current value, P&L
    and cumulative percentage of the last snapshot of that month and
    the investment of its first snapshot, and every later month's
    return is the percent change of the cumulative percentage relative
    to the month before (counted as 0 where that change is undefined). *)
Theorem monthly_returns_spec (h : list History.row) (ms : list Monthly.row) :
  calculate_monthly_returns (Some h) = Some ms ->
  Sorted Z.lt (List.map Monthly.Year_Month ms)
  /\ (forall k, In k (List.map Monthly.Year_Month ms)
                <-> exists r, In r h /\ period_of r = k)
  /\ (forall m rest, ms = m :: rest -> Monthly.Monthly_Return m = Fin 0)
  /\ (Forall (fun r => present r = true) h ->
      (forall m, In m ms ->
         exists r_last r_first,
           last_of_month h (Monthly.Year_Month m) r_last
           /\ first_of_month h (Monthly.Year_Month m) r_first
           /\ Monthly.Date m = History.Date r_last
           /\ Monthly.Current_Value m = History.Current_Value r_last
           /\ Monthly.Total_PL m = History.Total_PL r_last
           /\ Monthly.Total_PL_Percentage m = History.Total_PL_Percentage r_last
           /\ Monthly.Total_Investment m = History.Total_Investment r_first)
      /\ (forall i m1 m2,
            ms !! i = Some m1 -> ms !! S i = Some m2 ->
            Monthly.Monthly_Return m2
            = month_over_month (Monthly.Total_PL_Percentage m1)
                               (Monthly.Total_PL_Percentage m2))).
Proof.
  intros Hcalc. unfold calculate_monthly_returns in Hcalc.
  injection Hcalc as Hms.
  set (keys := group_keys
                 (List.map (fun r => Calendar.to_period_M (History.Date r)) h)) in *.
  set (aggs := List.map (agg_group h) keys) in *.
  set (pls := List.map Monthly.agg_Total_PL_Percentage aggs) in *.
  set (returns := Series.fillna (Fin 0) _) in *.
  assert (Hkeys : forall k, In k keys <-> exists r, In r h /\ period_of r = k).
  { intros k. unfold keys. rewrite group_keys_in, in_map_iff.
    split; intros [r [H1 H2]]; exists r; auto. }
  assert (Hlen : length returns = length aggs).
  { unfold returns, Series.fillna. rewrite !length_map, pct_change_length.
    apply length_map. }
  assert (Hym : List.map Monthly.Year_Month ms = keys).
  { rewrite <- Hms.
    rewrite (map_zip_with_l with_return Monthly.Year_Month Monthly.agg_Year_Month);
      [|reflexivity|exact Hlen].
    unfold aggs. rewrite List.map_map. cbn [agg_group Monthly.agg_Year_Month].
    apply List.map_id. }
  split; [rewrite Hym; apply group_keys_sorted|].
  split; [intros k; rewrite Hym; apply Hkeys|].
  split.
  - intros m rest Hcons. rewrite <- Hms in Hcons.
    destruct aggs as [|a aggs']; [discriminate|].
    destruct returns as [|b returns'] eqn:Er; [discriminate|].
    cbn [zip_with] in Hcons. injection Hcons as <- _.
    cbn [with_return Monthly.Monthly_Return].
    unfold Series.fillna in Er.
    destruct (Series.pct_change pls) as [|x more] eqn:Ep; [discriminate|].
    apply pct_change_head in Ep. subst x.
    cbn [List.map] in Er. injection Er as <- _. reflexivity.
  - intros Hpresent.
    assert (Hpls : Forall (fun x => notna x = true) pls).
    { apply List.Forall_forall. intros p Hp. unfold pls, aggs in Hp.
      rewrite List.map_map in Hp. apply in_map_iff in Hp as [k [<- Hk]].
      apply Hkeys in Hk as [x [Hx Hxk]].
      destruct (agg_group_rows h k x Hpresent Hx Hxk)
        as [r [_ [[front [back [Hh _]]] [_ [_ [_ [_ [Hpl _]]]]]]]].
      rewrite Hpl. rewrite List.Forall_forall in Hpresent.
      apply present_fields, Hpresent.
      rewrite Hh. apply in_or_app. right. left. reflexivity. }
    split.
    + intros m Hm. rewrite <- Hms in Hm.
      apply zip_with_in in Hm as [a [b [Ha [_ ->]]]].
      unfold aggs in Ha. apply in_map_iff in Ha as [k [<- Hk]].
      apply Hkeys in Hk as [x [Hx Hxk]].
      destruct (agg_group_rows h k x Hpresent Hx Hxk)
        as [r [r1 [Hlast [Hfirst [Hdate [Hcv [Htpl [Hpl Hti]]]]]]]].
      exists r, r1. cbn [with_return Monthly.Year_Month Monthly.Date
        Monthly.Total_PL_Percentage Monthly.Current_Value Monthly.Total_PL
        Monthly.Total_Investment].
      rewrite Hdate, Hcv, Htpl, Hpl, Hti.
      cbn [agg_group Monthly.agg_Year_Month]. auto 10.
    + intros i m1 m2 H1 H2. rewrite <- Hms in H1, H2.
      rewrite lookup_zip_with in H1, H2.
      destruct (aggs !! i) as [a1|] eqn:Ea1; [|discriminate].
      destruct (returns !! i) as [b1|] eqn:Eb1; [|discriminate].
      destruct (aggs !! S i) as [a2|] eqn:Ea2; [|discriminate].
      destruct (returns !! S i) as [b2|] eqn:Eb2; [|discriminate].
      simpl in H1, H2. injection H1 as <-. injection H2 as <-.
      cbn [with_return Monthly.Monthly_Return Monthly.Total_PL_Percentage].
      assert (Hp1 : pls !! i = Some (Monthly.agg_Total_PL_Percentage a1)).
      { unfold pls. rewrite lookup_map, Ea1. reflexivity. }
      assert (Hp2 : pls !! S i = Some (Monthly.agg_Total_PL_Percentage a2)).
      { unfold pls. rewrite lookup_map, Ea2. reflexivity. }
      unfold returns, Series.fillna in Eb2.
      rewrite (pct_change_present pls Hpls) in Eb2.
      destruct pls as [|p0 ps]; [rewrite lookup_nil in Hp1; discriminate|].
      rewrite !lookup_map in Eb2.
      change ((NaN :: Series.pct_from p0 ps) !! S i)
        with (Series.pct_from p0 ps !! i) in Eb2.
      rewrite (pct_from_lookup ps p0 _ _ i Hp1 Hp2) in Eb2.
      simpl in Eb2. injection Eb2 as <-. reflexivity.
Qed.

Lemma monthly_returns_spec_witness :
  exists ms,
    calculate_monthly_returns (Some jan_feb_history) = Some ms
    /\ Sorted Z.lt (List.map Monthly.Year_Month ms)
    /\ (forall m rest, ms = m :: rest -> Monthly.Monthly_Return m = Fin 0)
    /\ (forall i m1 m2,
          ms !! i = Some m1 -> ms !! S i = Some m2 ->
          Monthly.Monthly_Return m2
          = month_over_month (Monthly.Total_PL_Percentage m1)
                             (Monthly.Total_PL_Percentage m2)).
Proof.
  eexists. split; [reflexivity|].
  destruct (monthly_returns_spec jan_feb_history _ eq_refl)
    as [H1 [_ [H3 H4]]].
  destruct (H4 ltac:(repeat constructor)) as [_ H5].
  split; [exact H1|]. split; [exact H3|exact H5].
Defined.

(** The example: the January row is the snapshot of 31 January (2%)
    with a return of 0, the February row is the snapshot of 28 February
    (5%) with a return of 150. *)
Example monthly_returns_jan_feb :
  match calculate_monthly_returns (Some jan_feb_history) with
  | Some [jan; feb] =>
      Monthly.Date jan = Calendar.days_from_civil 2025 1 31
      /\ Monthly.Total_PL_Percentage jan = fz 2
      /\ Monthly.Monthly_Return jan = Fin 0
      /\ Monthly.Date feb = Calendar.days_from_civil 2025 2 28
      /\ Monthly.Total_PL_Percentage feb = fz 5
      /\ feq (Monthly.Monthly_Return feb) (fz 150)
  | _ => False
  end.
Proof. vm_compute. repeat split; reflexivity. Qed.

End MonthlyReturns.

(** * Further properties of the tracker *)

Section PriceFetch.

Import Portfolio PortfolioTracker Spec.

Lemma fetch_price_other (feed : string -> Py.result (option fl))
    (m : gmap string fl) (x s : string) :
  s <> x -> fetch_price feed m x !! s = m !! s.
Proof.
  intros Hne. unfold fetch_price.
  destruct (feed (String.append x ".NS")) as [v|e]; [|reflexivity].
  destruct (truthy v); [|reflexivity].
  destruct v as [p|]; [|reflexivity].
  apply lookup_insert_ne. congruence.
Qed.

Lemma fetch_price_same (feed : string -> Py.result (option fl))
    (m : gmap string fl) (s : string) :
  fetch_price feed m s !! s = entry_after feed m s.
Proof.
  unfold fetch_price, entry_after.
  destruct (feed (String.append s ".NS")) as [v|e]; [|reflexivity].
  destruct v as [p|]; [|reflexivity].
  destruct (truthy (Some p)); [|reflexivity].
  apply lookup_insert_eq.
Qed.

Lemma fetch_fold_other (feed : string -> Py.result (option fl))
    (l : list string) (m : gmap string fl) (s : string) :
  ~ In s l -> fold_left (fetch_price feed) l m !! s = m !! s.
Proof.
  revert m. induction l as [|x rest IH]; intros m Hnot; [reflexivity|].
  cbn [fold_left]. rewrite IH by (intros H; apply Hnot; right; exact H).
  apply fetch_price_other. intros ->. apply Hnot. left. reflexivity.
Qed.

Lemma fetch_fold_listed (feed : string -> Py.result (option fl))
    (l : list string) (m : gmap string fl) (s : string) :
  List.NoDup l -> In s l ->
  fold_left (fetch_price feed) l m !! s = entry_after feed m s.
Proof.
  intros Hnd. revert m. induction Hnd as [|x rest Hx Hnd IH]; intros m Hin;
    [contradiction|].
  cbn [fold_left]. destruct Hin as [->|Hin].
  - rewrite fetch_fold_other by exact Hx. apply fetch_price_same.
  - rewrite IH by exact Hin. unfold entry_after.
    assert (Hne : s <> x) by (intros ->; contradiction).
    rewrite (fetch_price_other feed m x s Hne). reflexivity.
Qed.

Lemma PORTFOLIO_LIST_NoDup : List.NoDup PORTFOLIO_LIST.
Proof.
  unfold PORTFOLIO_LIST.
  repeat (constructor; [intros H; repeat (destruct H as [H|H]; [discriminate|]);
                        exact H|]).
  constructor.
Qed.

(** X1: after [get_current_prices], a listed symbol holds the quote
    when the feed returned a true (non-zero) value for its ticker; when
    the feed raised, returned [None] or returned zero, the entry that
    was there before the call is still there, a stale price included. *)
Theorem get_current_prices_listed
    (feed : string -> Py.result (option fl)) (before : gmap string fl)
    (symbol : string) :
  In symbol PORTFOLIO_LIST ->
  get_current_prices feed before !! symbol = entry_after feed before symbol.
Proof.
  intros Hin. unfold get_current_prices.
  apply fetch_fold_listed; [apply PORTFOLIO_LIST_NoDup|exact Hin].
Qed.

Lemma get_current_prices_listed_witness :
  get_current_prices sample_feed {[ "LICI"%string := fz 800 ]} !! "LICI"%string
  = Some (fz 800).
Proof.
  rewrite (get_current_prices_listed sample_feed {[ "LICI"%string := fz 800 ]}
             "LICI"%string) by (vm_compute; tauto).
  vm_compute. reflexivity.
Defined.

(** X2: [get_current_prices] never touches a symbol outside its
    hard-coded list.  A holding with such a symbol therefore stays
    without price when the tracker starts with no prices: the valuation
    gives it a missing current price, current value and percentage. *)
Theorem unlisted_symbol_is_never_priced
    (feed : string -> Py.result (option fl)) (before : gmap string fl)
    (today : Calendar.Timestamp) (rows : list position)
    (data : list priced) (report : daily_report) :
  (forall s, ~ In s PORTFOLIO_LIST ->
     get_current_prices feed before !! s = before !! s)
  /\ (calculate_portfolio_performance today (Some rows)
        (get_current_prices feed ∅) = Some (data, report) ->
      forall r, In r data ->
        ~ In (Stock_Symbol (holding r)) PORTFOLIO_LIST ->
        Current_Price r = NaN /\ Current_Value r = NaN /\ PL_Percentage r = NaN).
Proof.
  split.
  - intros s Hs. apply fetch_fold_other. exact Hs.
  - unfold calculate_portfolio_performance. intros H r Hr Hs.
    injection H as <- _. apply in_map_iff in Hr as [p [<- _]].
    cbn [holding price_row] in Hs.
    assert (Hnone : get_current_prices feed ∅ !! Stock_Symbol p = None).
    { unfold get_current_prices. rewrite fetch_fold_other by exact Hs.
      apply lookup_empty. }
    unfold price_row. cbn [Current_Price Current_Value PL_Percentage].
    rewrite Hnone. auto.
Qed.

Lemma unlisted_symbol_is_never_priced_witness :
  get_current_prices sample_feed ∅ !! "TMCV"%string = None.
Proof.
  destruct (unlisted_symbol_is_never_priced sample_feed ∅ 0%Z [] [] (report_of 0%Z 1 1))
    as [H _].
  rewrite H; [reflexivity|].
  vm_compute. intros H'. repeat (destruct H' as [H'|H']; [discriminate|]). exact H'.
Defined.

End PriceFetch.

Section ValuationTotals.

Import Portfolio PortfolioTracker Spec.

Lemma Qsum_difference (qs : list (Q * Q)) :
  fold_left Qplus (List.map (fun x => fst x + - snd x) qs) 0
  == fold_left Qplus (List.map fst qs) 0 + - fold_left Qplus (List.map snd qs) 0.
Proof.
  induction qs as [|x rest IH]; cbn [List.map fold_left]; [ring|].
  rewrite (Qsum_shift _ (0 + (fst x + - snd x))).
  rewrite (Qsum_shift _ (0 + fst x)). rewrite (Qsum_shift _ (0 + snd x)).
  rewrite IH. ring.
Qed.

Lemma sum_of_fin {A : Type} (f : A -> Q) (l : list A) :
  Series.sum (List.map (fun x => Fin (f x)) l)
  = Fin (fold_left Qplus (List.map f l) 0).
Proof.
  rewrite <- (List.map_map f Fin). unfold Series.sum.
  rewrite dropna_map_fin. apply fold_fadd_fin.
Qed.

(** The three money columns of a table whose positions are all priced
    with finite numbers. *)
Lemma priced_columns (prices : gmap string fl) (rows : list position) :
  Forall (fully_priced prices) rows ->
  exists qs : list (Q * Q),
    List.map Current_Value (List.map (price_row prices) rows)
    = List.map (fun x => Fin (fst x)) qs
    /\ List.map Total_Investment (List.map (price_row prices) rows)
       = List.map (fun x => Fin (snd x)) qs
    /\ List.map Unrealized_PL (List.map (price_row prices) rows)
       = List.map (fun x => Fin (fst x + - snd x)) qs.
Proof.
  induction 1 as [|p rest Hp _ [qs [H1 [H2 H3]]]].
  - exists []. auto.
  - destruct Hp as [c [pp [q [Hc [Hpp Hq]]]]].
    exists ((c * q, pp * q) :: qs). cbn [List.map].
    rewrite H1, H2, H3. unfold price_row.
    cbn [Current_Value Total_Investment Unrealized_PL].
    rewrite Hc, Hpp, Hq. auto.
Qed.

(** X3: on a table with at least one position, when every position
    has a finite price, purchase price and quantity, the total P&L of
    the daily report equals the sum of the [Unrealized_PL] column. *)
Theorem total_pl_is_sum_of_positions
    (today : Calendar.Timestamp) (rows : list position)
    (prices : gmap string fl) (data : list priced) (report : daily_report) :
  rows <> [] ->
  Forall (fully_priced prices) rows ->
  calculate_portfolio_performance today (Some rows) prices = Some (data, report) ->
  feq (total_pl report) (Series.sum (List.map Unrealized_PL data)).
Proof.
  intros _ Hall H. unfold calculate_portfolio_performance in H.
  injection H as <- <-. cbn [total_pl].
  destruct (priced_columns prices rows Hall) as [qs [H1 [H2 H3]]].
  rewrite H1, H2, H3. rewrite !sum_of_fin. cbn [fsub fneg fadd feq].
  rewrite Qsum_difference. reflexivity.
Qed.

Lemma total_pl_is_sum_of_positions_witness :
  exists data report,
    calculate_portfolio_performance 0%Z
      (Some [scenario_position "A" 10 100; scenario_position "B" 20 100])
      scenario_prices = Some (data, report)
    /\ feq (total_pl report) (Series.sum (List.map Unrealized_PL data)).
Proof.
  eexists. eexists. split; [reflexivity|].
  eapply (total_pl_is_sum_of_positions 0%Z
            [scenario_position "A" 10 100; scenario_position "B" 20 100]
            scenario_prices).
  - discriminate.
  - repeat constructor; unfold fully_priced; eexists; eexists; eexists;
      repeat split; reflexivity.
  - reflexivity.
Defined.

(** With an unpriced position the two differ: the scenario's report
    says -500, the column sums to 0. *)
Example total_pl_with_unpriced_position :
  match calculate_portfolio_performance 0%Z (Some scenario_positions) scenario_prices with
  | Some (data, report) =>
      total_pl report = fz (-500)
      /\ Series.sum (List.map Unrealized_PL data) = fz 0
  | None => False
  end.
Proof. vm_compute. split; reflexivity. Qed.

Lemma unpriced_values (prices : gmap string fl) (rows : list position) :
  (forall p, In p rows -> prices !! Stock_Symbol p = None) ->
  Series.dropna (List.map Current_Value (List.map (price_row prices) rows)) = [].
Proof.
  induction rows as [|p rest IH]; intros Hnone; [reflexivity|].
  cbn [List.map]. unfold Series.dropna in *. cbn [List.filter].
  destruct (price_row_missing prices p (Hnone p (or_introl eq_refl))) as [_ ->].
  cbn [notna isnan negb]. apply IH. intros q Hq. apply Hnone. right. exact Hq.
Qed.

(** X4: when no position of the table has an entry in the price
    mapping (the feed was down), the report shows a total current value
    of 0, and, for a finite non-zero total investment, a total P&L
    percentage of -100: the outage reads as a total loss. *)
Theorem outage_reads_as_total_loss
    (today : Calendar.Timestamp) (rows : list position)
    (prices : gmap string fl) (data : list priced) (report : daily_report)
    (s : Q) :
  (forall p, In p rows -> prices !! Stock_Symbol p = None) ->
  calculate_portfolio_performance today (Some rows) prices = Some (data, report) ->
  total_investment report = Fin s ->
  ~ s == 0 ->
  total_current_value report = Fin 0
  /\ feq (total_pl_percentage report) (fz (-100)).
Proof.
  intros Hnone H Hinv Hs. unfold calculate_portfolio_performance in H.
  injection H as <- <-. cbn [total_current_value total_pl_percentage total_investment] in *.
  assert (Hcv : Series.sum (List.map Current_Value (List.map (price_row prices) rows))
                = Fin 0).
  { unfold Series.sum. rewrite unpriced_values by exact Hnone. reflexivity. }
  rewrite Hcv, Hinv. split; [reflexivity|].
  cbn [fsub fneg fadd]. rewrite fdiv_fin by exact Hs. cbn [fmul fz feq].
  change (inject_Z 100) with 100. change (inject_Z (-100)) with (-100).
  field. exact Hs.
Qed.

Lemma outage_reads_as_total_loss_witness :
  exists data report,
    calculate_portfolio_performance 0%Z (Some scenario_positions) ∅
    = Some (data, report)
    /\ total_current_value report = Fin 0
    /\ feq (total_pl_percentage report) (fz (-100)).
Proof.
  eexists. eexists. split; [reflexivity|].
  eapply (outage_reads_as_total_loss 0%Z scenario_positions ∅ _ _ 3500).
  - intros p _. apply lookup_empty.
  - reflexivity.
  - reflexivity.
  - unfold Qeq. simpl. lia.
Defined.

Lemma exceeds_has_value (t : fl) (r : priced) :
  spec_exceeds t r = true -> PL_Percentage r <> NaN.
Proof.
  unfold spec_exceeds, fgt. intros H Hnan. rewrite Hnan in H.
  destruct t; discriminate.
Qed.

(** X5: valuation of a table with at least one position, followed by
    [check_alerts] with a numeric threshold: every alert belongs to a position that has an entry in the price
    mapping, so a position without price never alerts, and there are at
    most as many alerts as positions. *)
Theorem alerts_only_for_priced
    (t : fl) (today : Calendar.Timestamp) (rows : list position)
    (prices : gmap string fl) (data : list priced) (report : daily_report)
    (alerts : list alert) :
  rows <> [] ->
  calculate_portfolio_performance today (Some rows) prices = Some (data, report) ->
  check_alerts (Py.Float t) data = Py.Returned alerts ->
  (forall a, In a alerts ->
     exists p, In p rows
               /\ Stock_Symbol p = symbol a
               /\ is_Some (prices !! Stock_Symbol p))
  /\ (length alerts <= length rows)%nat.
Proof.
  unfold calculate_portfolio_performance, check_alerts. intros _ H Hrun.
  injection H as <- _. rewrite check_alerts_from in Hrun.
  injection Hrun as <-. cbn [app]. split.
  - intros a Ha. apply in_map_iff in Ha as [r [<- Hr]].
    apply List.filter_In in Hr as [Hr Hex].
    apply in_map_iff in Hr as [p [<- Hp]].
    exists p. split; [exact Hp|]. split; [reflexivity|].
    destruct (prices !! Stock_Symbol p) as [c|] eqn:E; [eauto|].
    exfalso. apply (exceeds_has_value t _ Hex).
    unfold price_row. cbn [PL_Percentage]. rewrite E. reflexivity.
  - rewrite length_map.
    etransitivity; [apply List.filter_length_le|]. rewrite length_map. lia.
Qed.

Lemma alerts_only_for_priced_witness :
  exists data report alerts,
    calculate_portfolio_performance 0%Z (Some scenario_positions) scenario_prices
    = Some (data, report)
    /\ check_alerts (Py.Float (fz 5)) data = Py.Returned alerts
    /\ (length alerts <= length scenario_positions)%nat.
Proof.
  eexists. eexists. eexists. split; [reflexivity|]. split; [reflexivity|].
  eapply (alerts_only_for_priced (fz 5) 0%Z scenario_positions scenario_prices);
    [discriminate|reflexivity|reflexivity].
Defined.

End ValuationTotals.

Section DailyRun.

Import Portfolio PortfolioTracker Spec.

(** X6: with the threshold as shipped, a run on a loaded table with at
    least one position ends in a [TypeError] raised by the alert check,
    whatever the feed answers; no message has been sent and no workbook
    saved at that point. *)
Theorem daily_run_as_shipped
    (today now : Calendar.Timestamp) (rows : list position)
    (feed : string -> Py.result (option fl)) (prices : gmap string fl)
    (chart : option string) (smtp_ok excel_ok : bool)
    (existing : option (list History.row)) (w : world) :
  rows <> [] ->
  run_daily_tracker ALERT_THRESHOLD today now (Some rows) feed prices chart
    smtp_ok excel_ok existing w
  = (Py.Raised Py.TypeError, w).
Proof.
  intros Hne. destruct rows as [|p rest]; [congruence|].
  unfold run_daily_tracker, calculate_portfolio_performance, check_alerts.
  cbn [List.map Py.for_each]. rewrite check_row_shipped. reflexivity.
Qed.

Lemma daily_run_as_shipped_witness :
  run_daily_tracker ALERT_THRESHOLD 0%Z 0%Z (Some scenario_positions) sample_feed ∅
    None true true None empty_world
  = (Py.Raised Py.TypeError, empty_world).
Proof.
  apply (daily_run_as_shipped 0%Z 0%Z scenario_positions sample_feed ∅
           None true true None empty_world).
  discriminate.
Defined.

(** X7: a run with a numeric threshold on a loaded table with at least
    one position never raises and returns [True], also when neither the message could be sent nor
    the workbook saved.  The message goes out exactly when sending
    succeeds and carries the alerts of the positions beyond the
    threshold; the workbook is saved exactly when saving succeeds.  A
    table that cannot be loaded ends the run with [False] before
    anything else happens. *)
Theorem daily_run_reports_success
    (t : fl) (today now : Calendar.Timestamp) (rows : list position)
    (feed : string -> Py.result (option fl)) (prices : gmap string fl)
    (chart : option string) (smtp_ok excel_ok : bool)
    (existing : option (list History.row)) (w : world) :
  rows <> [] ->
  (exists w',
     run_daily_tracker (Py.Float t) today now (Some rows) feed prices chart
       smtp_ok excel_ok existing w
     = (Py.Returned true, w')
     /\ (exists mail,
           outbox w' = outbox w ++ (if smtp_ok then [mail] else [])
           /\ email_alerts mail
              = List.map (appended_alert t)
                  (List.filter (spec_exceeds t)
                     (List.map (price_row (get_current_prices feed prices)) rows))
           /\ email_chart mail = chart)
     /\ length (saved w') = (length (saved w) + (if excel_ok then 1 else 0))%nat)
  /\ run_daily_tracker (Py.Float t) today now None feed prices chart
       smtp_ok excel_ok existing w
     = (Py.Returned false, w).
Proof.
  intros _. split; [|reflexivity].
  unfold run_daily_tracker, calculate_portfolio_performance, check_alerts.
  rewrite check_alerts_from. cbn [app].
  eexists. split; [reflexivity|]. split.
  - destruct smtp_ok.
    + eexists. split; [destruct excel_ok; reflexivity|]. split; reflexivity.
    + exists {| email_alerts :=
                 List.map (appended_alert t)
                   (List.filter (spec_exceeds t)
                      (List.map (price_row (get_current_prices feed prices)) rows));
               email_report := report_of today 1 1;
               email_chart := chart |}.
      split; [destruct excel_ok; cbn [outbox]; rewrite app_nil_r; reflexivity|].
      split; reflexivity.
  - destruct smtp_ok, excel_ok; cbn [saved]; try rewrite length_app; simpl; lia.
Qed.

Lemma daily_run_reports_success_witness :
  exists w',
    run_daily_tracker (Py.Float (fz 5)) 0%Z 0%Z (Some scenario_positions)
      sample_feed scenario_prices None false false None empty_world
    = (Py.Returned true, w').
Proof.
  destruct (daily_run_reports_success (fz 5) 0%Z 0%Z scenario_positions
              sample_feed scenario_prices None false false None empty_world)
    as [[w' [Hrun _]] _].
  - discriminate.
  - exists w'. exact Hrun.
Defined.

End DailyRun.

(** * Further properties of the analysis *)

Section SyntheticShape.

Import Portfolio PortfolioAnalyzer Spec.

Lemma min_date_least (ds : list Calendar.Timestamp) (e : Calendar.Timestamp) :
  min_date ds = Some e -> In e ds /\ (forall d, In d ds -> (e <= d)%Z).
Proof.
  destruct ds as [|d0 rest]; [discriminate|]. cbn [min_date]. intros H.
  injection H as <-.
  assert (Hgen : forall l a,
            (fold_left Z.min l a = a \/ In (fold_left Z.min l a) l)
            /\ (fold_left Z.min l a <= a)%Z
            /\ (forall d, In d l -> (fold_left Z.min l a <= d)%Z)).
  { induction l as [|x l IHl]; intros a; cbn [fold_left].
    - split; [left; reflexivity|]. split; [lia|]. intros d [].
    - destruct (IHl (Z.min a x)) as [Hin [Hle Hall]]. split; [|split].
      + destruct Hin as [Heq|Hin]; [|right; right; exact Hin].
        rewrite Heq. destruct (Z.min_spec a x) as [[_ ->]|[_ ->]];
          [left; reflexivity|right; left; reflexivity].
      + lia.
      + intros d [<-|Hd]; [lia|apply Hall; exact Hd]. }
  destruct (Hgen rest d0) as [Hin [Hle Hall]]. split.
  - destruct Hin as [->|Hin]; [left; reflexivity|right; exact Hin].
  - intros d [<-|Hd]; [exact Hle|apply Hall; exact Hd].
Qed.

Lemma date_range_sorted (a : Calendar.Timestamp) (s n : nat) :
  StronglySorted Z.lt (List.map (fun k => (a + Z.of_nat k)%Z) (seq s n)).
Proof.
  revert s. induction n as [|n IH]; intros s; cbn [seq List.map]; constructor.
  - apply IH.
  - apply List.Forall_forall. intros y Hy.
    apply in_map_iff in Hy as [k [<- Hk]]. apply in_seq in Hk. lia.
Qed.

Lemma filter_sorted {A : Type} (R : A -> A -> Prop) (f : A -> bool) (l : list A) :
  StronglySorted R l -> StronglySorted R (List.filter f l).
Proof.
  induction 1 as [|x rest Hs IH Hall]; cbn [List.filter]; [constructor|].
  destruct (f x); [|exact IH]. constructor; [exact IH|].
  apply List.Forall_forall. intros y Hy. apply List.filter_In in Hy as [Hy _].
  rewrite List.Forall_forall in Hall. apply Hall. exact Hy.
Qed.

Lemma market_dates_sorted (e stop : Calendar.Timestamp) :
  StronglySorted Z.lt (market_dates e stop).
Proof.
  unfold market_dates, Calendar.date_range. apply filter_sorted.
  apply date_range_sorted.
Qed.

Lemma market_dates_in (e stop d : Calendar.Timestamp) :
  In d (market_dates e stop) ->
  (e <= d <= stop)%Z /\ (Calendar.weekday d < 5)%Z.
Proof.
  unfold market_dates, Calendar.date_range. intros H.
  apply List.filter_In in H as [H Hw]. apply Z.ltb_lt in Hw.
  apply in_map_iff in H as [k [<- Hk]]. apply in_seq in Hk. lia.
Qed.

Lemma imap_dates (e : Calendar.Timestamp) (init : fl) (z : nat -> fl)
    (l : list Calendar.Timestamp) :
  List.map History.Date (imap (fun i d => synth_row e init (z i) d) l) = l.
Proof.
  revert z. induction l as [|d rest IH]; intros z; [reflexivity|].
  cbn [imap List.map]. f_equal. apply (IH (fun i => z (S i))).
Qed.

Lemma imap_investment (e : Calendar.Timestamp) (init : fl) (z : nat -> fl)
    (l : list Calendar.Timestamp) :
  Forall (fun r => History.Total_Investment r = init)
    (imap (fun i d => synth_row e init (z i) d) l).
Proof.
  revert z. induction l as [|d rest IH]; intros z; cbn [imap]; constructor.
  - reflexivity.
  - apply (IH (fun i => z (S i))).
Qed.

(** X8: the synthetic history of a table with at least one position
    starts at the earliest purchase date and has exactly one row per
    weekday from that date through the end day, in strictly increasing
    order of date; every row carries the same investment, the sum of
    purchase price times quantity; and the generator has been asked for
    exactly one deviate per row. *)
Theorem synthetic_history_shape
    (end_date : Calendar.Timestamp) (g : rng) (rows : list position) :
  rows <> [] ->
  exists earliest h g',
    create_performance_data_from_portfolio end_date g (Some rows)
    = (Py.Returned (Some h), g')
    /\ In earliest (List.map Purchase_Date rows)
    /\ (forall p, In p rows -> (earliest <= Purchase_Date p)%Z)
    /\ List.map History.Date h = market_dates earliest end_date
    /\ StronglySorted Z.lt (List.map History.Date h)
    /\ (forall r, In r h ->
          (earliest <= History.Date r <= end_date)%Z
          /\ (Calendar.weekday (History.Date r) < 5)%Z
          /\ History.Total_Investment r
             = Series.sum
                 (List.map (fun p => (Purchase_Price p * Quantity p)%fl) rows))
    /\ drawn g' = (drawn g + length h)%nat.
Proof.
  intros Hne. unfold create_performance_data_from_portfolio.
  destruct (min_date (List.map Purchase_Date rows)) as [e|] eqn:E.
  2:{ destruct rows; [congruence|discriminate]. }
  destruct (min_date_least _ _ E) as [Hin Hleast].
  rewrite synth_fold by apply market_dates_later. cbn [app].
  exists e. eexists. eexists. split; [reflexivity|].
  split; [exact Hin|].
  split; [intros p Hp; apply Hleast; apply List.in_map; exact Hp|].
  assert (Hdates : List.map History.Date
            (imap (fun i d =>
                     synth_row e
                       (Series.sum
                          (List.map (fun p => (Purchase_Price p * Quantity p)%fl) rows))
                       (deviates g (drawn g + i)) d) (market_dates e end_date))
          = market_dates e end_date).
  { apply (imap_dates e _ (fun i => deviates g (drawn g + i))). }
  split; [exact Hdates|].
  split; [rewrite Hdates; apply market_dates_sorted|].
  split.
  - intros r Hr.
    assert (Hd : In (History.Date r) (market_dates e end_date)).
    { rewrite <- Hdates. apply List.in_map. exact Hr. }
    destruct (market_dates_in _ _ _ Hd) as [Hrange Hweek].
    split; [exact Hrange|]. split; [exact Hweek|].
    pose proof (imap_investment e
                  (Series.sum
                     (List.map (fun p => (Purchase_Price p * Quantity p)%fl) rows))
                  (fun i => deviates g (drawn g + i)) (market_dates e end_date))
      as Hall.
    rewrite List.Forall_forall in Hall. apply Hall. exact Hr.
  - cbn [drawn]. rewrite length_imap. reflexivity.
Qed.

Lemma synthetic_history_shape_witness :
  exists earliest h g',
    create_performance_data_from_portfolio 20396%Z (constant_rng (Fin 0) 3)
      (Some (bought_on 20390%Z))
    = (Py.Returned (Some h), g')
    /\ List.map History.Date h = market_dates earliest 20396%Z
    /\ drawn g' = (3 + length h)%nat.
Proof.
  destruct (synthetic_history_shape 20396%Z (constant_rng (Fin 0) 3)
              (bought_on 20390%Z))
    as [e [h [g' [Hrun [_ [_ [Hdates [_ [_ Hdrawn]]]]]]]]].
  - discriminate.
  - exists e, h, g'. split; [exact Hrun|]. split; [exact Hdates|exact Hdrawn].
Defined.

(** X9: when every purchase date lies after the end day, the synthetic
    history has no rows and the generator is not asked for anything; a
    table without positions has no earliest date and the call raises. *)
Theorem synthetic_history_of_future_purchases
    (end_date : Calendar.Timestamp) (g : rng) (rows : list position) :
  rows <> [] ->
  (forall p, In p rows -> (end_date < Purchase_Date p)%Z) ->
  (exists g',
     create_performance_data_from_portfolio end_date g (Some rows)
     = (Py.Returned (Some []), g')
     /\ drawn g' = drawn g)
  /\ create_performance_data_from_portfolio end_date g (Some [])
     = (Py.Raised Py.ValueError, g).
Proof.
  intros Hne Hfuture. split; [|reflexivity].
  unfold create_performance_data_from_portfolio.
  destruct (min_date (List.map Purchase_Date rows)) as [e|] eqn:E.
  2:{ destruct rows; [congruence|discriminate]. }
  destruct (min_date_least _ _ E) as [Hin _].
  apply in_map_iff in Hin as [p [Hp Hin]]. specialize (Hfuture p Hin).
  assert (Hempty : market_dates e end_date = []).
  { unfold market_dates, Calendar.date_range.
    replace (Z.to_nat (end_date - e + 1)) with 0%nat by lia. reflexivity. }
  rewrite Hempty. cbn [fold_left]. eexists. split; reflexivity.
Qed.

Lemma synthetic_history_of_future_purchases_witness :
  exists g',
    create_performance_data_from_portfolio 20396%Z (constant_rng (Fin 0) 3)
      (Some (bought_on 20400%Z))
    = (Py.Returned (Some []), g')
    /\ drawn g' = 3%nat.
Proof.
  destruct (synthetic_history_of_future_purchases 20396%Z (constant_rng (Fin 0) 3)
              (bought_on 20400%Z)) as [[g' H] _].
  - discriminate.
  - intros p [<-|[]]. reflexivity.
  - exists g'. exact H.
Defined.

End SyntheticShape.

Section LoadedHistory.

Import PortfolioAnalyzer Spec.

Lemma insert_by_date_perm (r : History.row) (l : list History.row) :
  Permutation (r :: l) (insert_by_date r l).
Proof.
  induction l as [|e rest IH]; cbn [insert_by_date]; [reflexivity|].
  destruct (History.Date r <=? History.Date e)%Z; [reflexivity|].
  rewrite perm_swap. apply perm_skip. exact IH.
Qed.

Lemma insert_by_date_sorted (r : History.row) (l : list History.row) :
  StronglySorted Z.le (List.map History.Date l) ->
  StronglySorted Z.le (List.map History.Date (insert_by_date r l)).
Proof.
  induction l as [|e rest IH]; intros Hs; cbn [insert_by_date List.map].
  - repeat constructor.
  - cbn [List.map] in Hs. apply StronglySorted_inv in Hs as [Hrest Hall].
    destruct (History.Date r <=? History.Date e)%Z eqn:E.
    + apply Z.leb_le in E. cbn [List.map]. constructor.
      * constructor; assumption.
      * constructor; [exact E|].
        rewrite List.Forall_forall in *. intros d Hd.
        specialize (Hall d Hd). lia.
    + apply Z.leb_gt in E. cbn [List.map]. constructor; [apply IH; exact Hrest|].
      rewrite List.Forall_forall in *. intros d Hd.
      apply in_map_iff in Hd as [x [<- Hx]].
      apply (Permutation_in _ (Permutation_sym (insert_by_date_perm r rest))) in Hx.
      destruct Hx as [<-|Hx]; [lia|].
      apply Hall. apply List.in_map. exact Hx.
Qed.

Lemma sort_by_date_perm (h : list History.row) : Permutation h (sort_by_date h).
Proof.
  induction h as [|r rest IH]; cbn [sort_by_date fold_right]; [reflexivity|].
  rewrite <- insert_by_date_perm. apply perm_skip. exact IH.
Qed.

Lemma sort_by_date_sorted (h : list History.row) :
  StronglySorted Z.le (List.map History.Date (sort_by_date h)).
Proof.
  induction h as [|r rest IH]; cbn [sort_by_date fold_right]; [constructor|].
  apply insert_by_date_sorted. exact IH.
Qed.

(** X10: [load_performance_history] keeps every row of the sheet, each
    as often as it occurs, and leaves the rows in non-decreasing order
    of date, whatever the order in the sheet was.  It reports success
    exactly when the sheet has at least one row: a history sheet
    without rows is reported like a missing one. *)
Theorem loaded_history_is_sorted (sheet : list History.row) :
  exists h ok,
    load_performance_history (Some sheet) = (Some h, ok)
    /\ Permutation sheet h
    /\ StronglySorted Z.le (List.map History.Date h)
    /\ (ok = true <-> sheet <> []).
Proof.
  exists (sort_by_date sheet). eexists. split; [reflexivity|].
  split; [apply sort_by_date_perm|]. split; [apply sort_by_date_sorted|].
  pose proof (sort_by_date_perm sheet) as Hp.
  destruct (sort_by_date sheet) as [|r rest] eqn:E.
  - apply Permutation_sym, Permutation_nil in Hp. subst sheet.
    split; [discriminate|intros H; contradiction H; reflexivity].
  - split; [|reflexivity]. intros _ ->.
    apply Permutation_nil in Hp. discriminate.
Qed.

Lemma sorted_before {A : Type} (R : A -> A -> Prop) (l1 l2 : list A) (x y : A) :
  StronglySorted R (l1 ++ x :: l2) -> In y l1 -> R y x.
Proof.
  induction l1 as [|a rest IH]; intros Hs Hy; [contradiction|].
  cbn [app] in Hs. apply StronglySorted_inv in Hs as [Hrest Hall].
  destruct Hy as [<-|Hy]; [|apply IH; assumption].
  rewrite List.Forall_forall in Hall. apply Hall.
  apply in_or_app. right. left. reflexivity.
Qed.

(** The date of a monthly aggregate is that of the last row of the
    month. *)
Lemma agg_date_last (h : list History.row) (k : Z) (x : History.row) :
  In x h -> period_of x = k ->
  exists front r back,
    h = front ++ r :: back
    /\ period_of r = k
    /\ (forall r', In r' back -> period_of r' <> k)
    /\ Monthly.agg_Date (agg_group h k) = History.Date r.
Proof.
  intros Hin Hk.
  set (f := fun r : History.row => (Calendar.to_period_M (History.Date r) =? k)%Z).
  assert (Hfx : f x = true) by (apply Z.eqb_eq; exact Hk).
  destruct (filter_last_split f h x x Hin Hfx)
    as [front [r [back [Hh [Hr [Hback Hlast]]]]]].
  exists front, r, back. split; [exact Hh|].
  split; [apply Z.eqb_eq; exact Hr|].
  split; [intros r' Hr'; apply Z.eqb_neq; apply Hback; exact Hr'|].
  assert (Hne : List.filter f h <> []).
  { intros Hnil. assert (Hx : In x (List.filter f h))
      by (apply List.filter_In; auto). rewrite Hnil in Hx. contradiction. }
  unfold agg_group, group_rows. fold f. cbn [Monthly.agg_Date].
  rewrite (last_map History.Date _ x) by exact Hne. rewrite Hlast. reflexivity.
Qed.

(** X11: on a history in non-decreasing order of date (as
    [load_performance_history] leaves it), the date of every monthly
    row is the date of a snapshot of that month and no snapshot of the
    month is later: the month is represented by its latest day. *)
Theorem monthly_date_is_latest (h : list History.row) (ms : list Monthly.row) :
  StronglySorted Z.le (List.map History.Date h) ->
  calculate_monthly_returns (Some h) = Some ms ->
  forall m, In m ms ->
    (exists r, In r h
               /\ period_of r = Monthly.Year_Month m
               /\ History.Date r = Monthly.Date m)
    /\ (forall r, In r h -> period_of r = Monthly.Year_Month m ->
          (History.Date r <= Monthly.Date m)%Z).
Proof.
  intros Hsorted Hcalc m Hm. unfold calculate_monthly_returns in Hcalc.
  injection Hcalc as Hms. rewrite <- Hms in Hm.
  apply zip_with_in in Hm as [a [b [Ha [_ ->]]]].
  apply in_map_iff in Ha as [k [<- Hk]].
  rewrite group_keys_in in Hk. apply in_map_iff in Hk as [x [Hxk Hx]].
  destruct (agg_date_last h k x Hx Hxk) as [front [r [back [Hh [Hr [Hback Hdate]]]]]].
  cbn [with_return Monthly.Year_Month Monthly.Date agg_group Monthly.agg_Year_Month].
  change (Monthly.agg_Date _) with (Monthly.agg_Date (agg_group h k)).
  rewrite Hdate. split.
  - exists r. split; [|split; [exact Hr|reflexivity]].
    rewrite Hh. apply in_or_app. right. left. reflexivity.
  - intros r' Hr' Hk'. rewrite Hh in Hr'.
    apply in_app_or in Hr' as [Hf|[<-|Hb]].
    + rewrite Hh, List.map_app in Hsorted. cbn [List.map] in Hsorted.
      apply (sorted_before Z.le _ _ _ _ Hsorted). apply List.in_map. exact Hf.
    + lia.
    + exfalso. apply (Hback r' Hb). exact Hk'.
Qed.

Lemma monthly_date_is_latest_witness :
  exists ms,
    calculate_monthly_returns (Some jan_feb_history) = Some ms
    /\ Forall (fun m =>
                 forall r, In r jan_feb_history ->
                   period_of r = Monthly.Year_Month m ->
                   (History.Date r <= Monthly.Date m)%Z) ms.
Proof.
  eexists. split; [reflexivity|].
  apply List.Forall_forall. intros m Hm.
  apply (monthly_date_is_latest jan_feb_history _
           ltac:(repeat constructor; vm_compute; discriminate) eq_refl m Hm).
Defined.

Lemma strictly_sorted_le (l : list Z) : StronglySorted Z.lt l -> StronglySorted Z.le l.
Proof.
  induction 1 as [|x rest Hs IH Hall]; constructor; [exact IH|].
  rewrite List.Forall_forall in *. intros y Hy. specialize (Hall y Hy). lia.
Qed.

(** X12: the history that [main] analyses is in non-decreasing order of
    date on both paths: loaded from the stored sheet, or synthesised
    when the sheet is missing or has no rows. *)
Theorem main_history_is_sorted
    (sheet : option (list History.row)) (end_date : Calendar.Timestamp)
    (g g' : rng) (portfolio : option (list Portfolio.position))
    (h : list History.row) :
  main_history sheet end_date g portfolio = (Py.Returned (Some h), g') ->
  StronglySorted Z.le (List.map History.Date h).
Proof.
  unfold main_history. destruct portfolio as [rows|]; [|discriminate].
  assert (Hsynth :
    create_performance_data_from_portfolio end_date g (Some rows)
    = (Py.Returned (Some h), g') ->
    StronglySorted Z.le (List.map History.Date h)).
  { unfold create_performance_data_from_portfolio.
    destruct (min_date (List.map Portfolio.Purchase_Date rows)) as [e|];
      [|discriminate].
    rewrite synth_fold by apply market_dates_later. cbn [app].
    intros H. injection H as <- _.
    rewrite (imap_dates e _ (fun i => deviates g (drawn g + i))).
    apply strictly_sorted_le. apply market_dates_sorted. }
  destruct sheet as [stored|]; cbn [load_performance_history]; [|exact Hsynth].
  pose proof (sort_by_date_sorted stored) as Hsorted.
  destruct (sort_by_date stored) as [|r rest]; [exact Hsynth|].
  intros H. injection H as <- _. exact Hsorted.
Qed.

Lemma main_history_is_sorted_witness :
  StronglySorted Z.le
    (List.map History.Date (sort_by_date (List.rev jan_feb_history))).
Proof.
  apply (main_history_is_sorted (Some (List.rev jan_feb_history)) 0%Z
           (constant_rng (Fin 0) 0) (constant_rng (Fin 0) 0)
           (Some [scenario_position "INFY" 1500 50])).
  reflexivity.
Defined.

End LoadedHistory.

Section FloatOrder.

Lemma fle_refl (x : fl) : x <> NaN -> fle x x = true.
Proof.
  destruct x as [q| | |]; intros H; try reflexivity; [|congruence].
  apply fle_fin. lra.
Qed.

Lemma fle_trans (a b c : fl) :
  fle a b = true -> fle b c = true -> fle a c = true.
Proof.
  destruct a as [p| | |], b as [q| | |], c as [r| | |]; simpl;
    try discriminate; try reflexivity.
  rewrite !negb_true_iff, !Qltb_ge. lra.
Qed.

Lemma fle_total (a b : fl) :
  a <> NaN -> b <> NaN -> fle a b = false -> fle b a = true.
Proof.
  destruct a as [p| | |], b as [q| | |]; simpl; intros Ha Hb;
    try congruence; try discriminate.
  rewrite negb_false_iff, negb_true_iff, Qltb_lt, Qltb_ge. lra.
Qed.

Lemma fle_not_nan (a b : fl) : fle a b = true -> a <> NaN /\ b <> NaN.
Proof.
  destruct a, b; simpl; intros H; try discriminate; split; discriminate.
Qed.

End FloatOrder.

Section Ranking.

Import Portfolio PortfolioAnalyzer Spec.

Lemma isnan_true (x : fl) : isnan x = true <-> x = NaN.
Proof. destruct x; simpl; split; congruence. Qed.

Lemma notna_true (x : fl) : notna x = true <-> x <> NaN.
Proof.
  unfold notna. rewrite negb_true_iff, <- isnan_true.
  destruct (isnan x); split; congruence.
Qed.

Lemma before_ranked (a b : analysed) : before a b = true <-> ranked a b.
Proof.
  unfold before, ranked.
  rewrite orb_true_iff, andb_true_iff, isnan_true, notna_true. reflexivity.
Qed.

Lemma ranked_trans (a b c : analysed) : ranked a b -> ranked b c -> ranked a c.
Proof.
  unfold ranked. intros Hab [Hc|[Hb Hbc]]; [left; exact Hc|].
  destruct Hab as [Hb'|[Ha Hab]]; [congruence|].
  right. split; [exact Ha|]. apply (fle_trans _ _ _ Hbc Hab).
Qed.

Lemma not_before (a b : analysed) : before a b = false -> ranked b a.
Proof.
  unfold before, ranked. intros H.
  apply orb_false_iff in H as [Hb H].
  assert (Hbn : PL_Percentage (stock b) <> NaN).
  { intros E. apply isnan_true in E. congruence. }
  destruct (isnan (PL_Percentage (stock a))) eqn:Ea.
  - left. apply isnan_true. exact Ea.
  - right. split; [exact Hbn|].
    assert (Han : PL_Percentage (stock a) <> NaN).
    { intros E. apply isnan_true in E. congruence. }
    apply andb_false_iff in H as [H|H].
    + apply notna_true in Han. congruence.
    + apply fle_total; assumption.
Qed.

Lemma insert_desc_perm (r : analysed) (l : list analysed) :
  Permutation (r :: l) (insert_desc r l).
Proof.
  induction l as [|e rest IH]; cbn [insert_desc]; [reflexivity|].
  destruct (before r e); [reflexivity|].
  rewrite perm_swap. apply perm_skip. exact IH.
Qed.

Lemma insert_desc_sorted (r : analysed) (l : list analysed) :
  StronglySorted ranked l -> StronglySorted ranked (insert_desc r l).
Proof.
  induction l as [|e rest IH]; intros Hs; cbn [insert_desc].
  - repeat constructor.
  - pose proof Hs as Hs'. apply StronglySorted_inv in Hs' as [Hrest Hall].
    destruct (before r e) eqn:E.
    + apply before_ranked in E. constructor; [exact Hs|].
      constructor; [exact E|].
      rewrite List.Forall_forall in *. intros x Hx.
      apply (ranked_trans _ _ _ E). apply Hall. exact Hx.
    + apply not_before in E. constructor; [apply IH; exact Hrest|].
      rewrite List.Forall_forall in *. intros x Hx.
      apply (Permutation_in _ (Permutation_sym (insert_desc_perm r rest))) in Hx.
      destruct Hx as [<-|Hx]; [exact E|apply Hall; exact Hx].
Qed.

Lemma sort_desc_perm (l : list analysed) : Permutation l (sort_desc l).
Proof.
  induction l as [|r rest IH]; cbn [sort_desc fold_right]; [reflexivity|].
  rewrite <- insert_desc_perm. apply perm_skip. exact IH.
Qed.

Lemma sort_desc_sorted (l : list analysed) : StronglySorted ranked (sort_desc l).
Proof.
  induction l as [|r rest IH]; cbn [sort_desc fold_right]; [constructor|].
  apply insert_desc_sorted. exact IH.
Qed.

(** X13: [analyze_stock_performance] leaves in [stock_performance] the
    same rows as in the portfolio table, each once per occurrence,
    ranked by percentage from high to low with the positions that have
    no percentage at the end: every row is ranked no later than all
    rows after it. *)
Theorem stock_performance_is_ranked (data : list priced) :
  exists rows sorted,
    analyze_stock_performance (Some data) = Some (rows, sorted)
    /\ List.map stock rows = data
    /\ Permutation rows sorted
    /\ StronglySorted ranked sorted.
Proof.
  eexists. eexists. split; [reflexivity|]. split; [|split].
  - rewrite List.map_map. cbn [stock]. apply List.map_id.
  - apply sort_desc_perm.
  - apply sort_desc_sorted.
Qed.

(** The scenario ranked: A (+20%), B (-10%), then C without price. *)
Example stock_performance_of_scenario :
  match analyze_stock_performance
          (Some (List.map (PortfolioTracker.price_row scenario_prices)
                   (List.rev scenario_positions))) with
  | Some (rows, sorted) =>
      List.map (fun r => Stock_Symbol (holding (stock r))) rows
      = ["C"; "B"; "A"]%string
      /\ List.map (fun r => Stock_Symbol (holding (stock r))) sorted
         = ["A"; "B"; "C"]%string
  | None => False
  end.
Proof. vm_compute. split; reflexivity. Qed.

End Ranking.

Section Shares.

Import Portfolio PortfolioAnalyzer Spec.

Lemma scaled_isnan (v : fl) (s : Q) :
  ~ s == 0 -> isnan (v / Fin s * fz 100)%fl = isnan v.
Proof.
  intros Hs. destruct v as [q| | |]; try reflexivity.
  - rewrite fdiv_fin by exact Hs. reflexivity.
  - cbn [fdiv]. destruct (Qltb s 0); reflexivity.
  - cbn [fdiv]. destruct (Qltb s 0); reflexivity.
Qed.

Lemma dropna_scaled (l : list fl) (s : Q) :
  ~ s == 0 ->
  Series.dropna (List.map (fun v => (v / Fin s * fz 100)%fl) l)
  = List.map (fun v => (v / Fin s * fz 100)%fl) (Series.dropna l).
Proof.
  intros Hs. induction l as [|v rest IH]; [reflexivity|].
  unfold Series.dropna in *. cbn [List.map List.filter].
  assert (Hn : notna (v / Fin s * fz 100)%fl = notna v)
    by (unfold notna; rewrite (scaled_isnan v s Hs); reflexivity).
  rewrite Hn. destruct (notna v); cbn [List.map]; [f_equal; exact IH|exact IH].
Qed.

(** A finite sum divided through by itself, in percent, sums to 100. *)
Lemma scaled_sum (l : list fl) (s : Q) :
  Series.sum l = Fin s -> ~ s == 0 ->
  feq (Series.sum (List.map (fun v => (v / Fin s * fz 100)%fl) l)) (fz 100).
Proof.
  intros Hsum Hs. unfold Series.sum at 1. rewrite dropna_scaled by exact Hs.
  destruct (sum_fin_inv _ _ Hsum) as [qs [Hqs Htot]].
  rewrite Hqs, scaled_fin by exact Hs. rewrite fold_fadd_fin.
  cbn [feq fz]. rewrite Qsum_scaled by exact Hs. rewrite Htot.
  change (inject_Z 100) with 100. field. exact Hs.
Qed.

(** X14: when the total unrealised P&L is finite and not zero, the
    [Contribution] column sums to 100 (positions without a value are
    skipped by the sum). *)
Theorem contributions_sum_to_100
    (data : list priced) (rows sorted : list analysed) (s : Q) :
  analyze_stock_performance (Some data) = Some (rows, sorted) ->
  Series.sum (List.map Unrealized_PL data) = Fin s ->
  ~ s == 0 ->
  feq (Series.sum (List.map Contribution rows)) (fz 100).
Proof.
  unfold analyze_stock_performance. intros H Hsum Hs.
  injection H as <- _. rewrite List.map_map. cbn [Contribution].
  rewrite Hsum. rewrite <- (List.map_map Unrealized_PL
                              (fun v => (v / Fin s * fz 100)%fl)).
  apply scaled_sum; assumption.
Qed.

Lemma contributions_sum_to_100_witness :
  exists rows sorted,
    analyze_stock_performance (Some boundary_data) = Some (rows, sorted)
    /\ feq (Series.sum (List.map Contribution rows)) (fz 100).
Proof.
  eexists. eexists. split; [reflexivity|].
  eapply (contributions_sum_to_100 boundary_data _ _ (inject_Z 500)).
  - reflexivity.
  - reflexivity.
  - unfold Qeq. simpl. lia.
Defined.

(** Gains and losses that cancel leave every contribution undefined. *)
Example contributions_of_cancelling_positions :
  match analyze_stock_performance
          (Some [at_pl "UP" 10500; at_pl "DOWN" 9500]) with
  | Some (rows, _) => List.map Contribution rows = [PInf; NInf]
  | None => False
  end.
Proof. vm_compute. reflexivity. Qed.

Lemma Qsum_nonneg (qs : list Q) (a : Q) :
  Forall (fun q => 0 <= q) qs -> 0 <= a -> a <= fold_left Qplus qs a.
Proof.
  intros H. revert a. induction H as [|q rest Hq _ IH]; intros a Ha;
    cbn [fold_left]; [lra|].
  specialize (IH (a + q) ltac:(lra)). lra.
Qed.

Lemma Qsum_member (qs : list Q) (q : Q) :
  Forall (fun x => 0 <= x) qs -> In q qs -> q <= fold_left Qplus qs 0.
Proof.
  intros H. revert q. induction H as [|x rest Hx Hrest IH]; intros q Hin;
    [contradiction|].
  cbn [fold_left]. rewrite Qsum_shift. destruct Hin as [<-|Hin].
  - pose proof (Qsum_nonneg rest 0 Hrest ltac:(lra)). lra.
  - specialize (IH q Hin). lra.
Qed.

(** X15: when every current value is missing or a finite number not
    below 0 and their total is positive, every weight is missing or
    lies between 0 and 100, and it is missing only where the current
    value is. *)
Theorem weights_are_shares
    (data : list priced) (rows sorted : list analysed) (s : Q) :
  analyze_stock_performance (Some data) = Some (rows, sorted) ->
  Forall (fun r => nonneg_or_missing (Current_Value r)) data ->
  Series.sum (List.map Current_Value data) = Fin s ->
  0 < s ->
  forall r, In r rows ->
    share_or_missing (Weight r)
    /\ (Weight r = NaN <-> Current_Value (stock r) = NaN).
Proof.
  unfold analyze_stock_performance. intros H Hall Hsum Hs r Hr.
  injection H as <- _. apply in_map_iff in Hr as [p [<- Hp]].
  cbn [Weight stock]. rewrite Hsum.
  rewrite List.Forall_forall in Hall. pose proof (Hall p Hp) as Hv.
  destruct (sum_fin_inv _ _ Hsum) as [qs [Hqs Htot]].
  destruct (Current_Value p) as [q| | |] eqn:E; cbn [nonneg_or_missing] in Hv;
    try contradiction.
  2:{ split; [exact I|]. split; reflexivity. }
  rewrite fdiv_fin by lra. cbn [fmul fz share_or_missing].
  split; [|split; discriminate].
  assert (Hin : In (Fin q) (Series.dropna (List.map Current_Value data))).
  { apply List.filter_In. split; [|reflexivity].
    rewrite <- E. apply List.in_map. exact Hp. }
  rewrite Hqs in Hin. apply in_map_iff in Hin as [q' [Heq Hq']].
  injection Heq as ->.
  assert (Hnonneg : Forall (fun x => 0 <= x) qs).
  { apply List.Forall_forall. intros x Hx.
    assert (Hfx : In (Fin x) (Series.dropna (List.map Current_Value data))).
    { rewrite Hqs. apply List.in_map. exact Hx. }
    apply List.filter_In in Hfx as [Hfx _].
    apply in_map_iff in Hfx as [p' [Ep' Hp']].
    specialize (Hall p' Hp'). rewrite Ep' in Hall. exact Hall. }
  pose proof (Qsum_member qs q Hnonneg Hq') as Hle. rewrite Htot in Hle.
  change (inject_Z 100) with 100.
  assert (Hk : 0 < / s) by (apply Qinv_lt_0_compat; exact Hs).
  unfold Qdiv. set (k := / s) in *.
  assert (Hks : s * k == 1) by (unfold k; field; lra).
  split; [nra|].
  assert (Hqk : q * k <= s * k) by nra. rewrite Hks in Hqk. lra.
Qed.

Lemma weights_are_shares_witness :
  exists rows sorted,
    analyze_stock_performance (Some boundary_data) = Some (rows, sorted)
    /\ Forall (fun r => share_or_missing (Weight r)) rows.
Proof.
  eexists. eexists. split; [reflexivity|].
  apply List.Forall_forall. intros r Hr.
  eapply (weights_are_shares boundary_data _ _ (inject_Z 30500)).
  - reflexivity.
  - repeat constructor; vm_compute; discriminate.
  - reflexivity.
  - reflexivity.
  - exact Hr.
Defined.

End Shares.

Section RiskRanges.

Import PortfolioAnalyzer Spec.

Lemma dropna_not_nan (s : list fl) : Forall (fun x => x <> NaN) (Series.dropna s).
Proof.
  apply List.Forall_forall. intros x Hx. apply List.filter_In in Hx as [_ Hx].
  intros ->. discriminate.
Qed.

Lemma risk_metrics_fields (h : list History.row) (m : risk_metrics) :
  calculate_risk_metrics (Some h) = Py.Returned (Some m) ->
  Positive_Days m
  = (fz (Z.of_nat (length (List.filter (fun x => fgt x (Fin 0)) (daily_returns_of h))))
     / fz (Z.of_nat (length (daily_returns_of h))) * fz 100)%fl
  /\ Worst_Day m = (Series.min (daily_returns_of h) * fz 100)%fl
  /\ Best_Day m = (Series.max (daily_returns_of h) * fz 100)%fl.
Proof.
  destruct h as [|x rest]; [discriminate|].
  unfold calculate_risk_metrics, iloc_last, mbind, Py.result_bind, mret,
    Py.result_ret.
  cbn [List.map]. intros H. injection H as <-. repeat split; reflexivity.
Qed.

(** X16: when there is at least one daily return, [Positive_Days] is a
    finite number between 0 and 100. *)
Theorem positive_days_is_a_percentage (h : list History.row) (m : risk_metrics) :
  calculate_risk_metrics (Some h) = Py.Returned (Some m) ->
  daily_returns_of h <> [] ->
  exists p, Positive_Days m = Fin p /\ 0 <= p <= 100.
Proof.
  intros H Hne. destruct (risk_metrics_fields h m H) as [Hpos _].
  rewrite Hpos. clear Hpos H.
  set (dr := daily_returns_of h) in *.
  set (c := length (List.filter (fun y => fgt y (Fin 0)) dr)).
  assert (Hc : (c <= length dr)%nat) by apply List.filter_length_le.
  assert (Hn : (0 < length dr)%nat) by (destruct dr; [congruence|simpl; lia]).
  unfold fz. rewrite fdiv_fin by (apply inject_nat_nonzero; exact Hn).
  cbn [fmul]. eexists. split; [reflexivity|].
  assert (Hcq : inject_Z (Z.of_nat c) <= inject_Z (Z.of_nat (length dr)))
    by (rewrite <- Zle_Qle; lia).
  assert (Hc0 : 0 <= inject_Z (Z.of_nat c))
    by (change 0 with (inject_Z 0); rewrite <- Zle_Qle; lia).
  assert (Hn0 : 0 < inject_Z (Z.of_nat (length dr)))
    by (change 0 with (inject_Z 0); rewrite <- Zlt_Qlt; lia).
  change (inject_Z 100) with 100. unfold Qdiv.
  set (a := inject_Z (Z.of_nat c)) in *.
  set (n := inject_Z (Z.of_nat (length dr))) in *.
  assert (Hk : 0 < / n) by (apply Qinv_lt_0_compat; exact Hn0).
  set (k := / n) in *.
  assert (Hkn : n * k == 1) by (unfold k; field; lra).
  split; [nra|].
  assert (Hak : a * k <= n * k) by nra. rewrite Hkn in Hak. lra.
Qed.

Lemma positive_days_is_a_percentage_witness :
  exists m p,
    calculate_risk_metrics (Some (pl_history 20394%Z [1; 2; 4]%Z))
    = Py.Returned (Some m)
    /\ Positive_Days m = Fin p /\ 0 <= p <= 100.
Proof.
  eexists.
  destruct (positive_days_is_a_percentage (pl_history 20394%Z [1; 2; 4]%Z) _ eq_refl)
    as [p Hp].
  - vm_compute. discriminate.
  - exists p. split; [reflexivity|exact Hp].
Defined.

Lemma flt_fle (a b : fl) : flt a b = true -> fle a b = true.
Proof.
  destruct a as [p| | |], b as [q| | |]; simpl; intros H;
    try discriminate; try reflexivity.
  apply Qltb_lt in H. rewrite negb_true_iff. apply Qltb_ge. lra.
Qed.

Lemma min2_not_nan (x y : fl) : x <> NaN -> y <> NaN -> Series.min2 x y <> NaN.
Proof. unfold Series.min2. destruct (flt y x); auto. Qed.

Lemma max2_not_nan (x y : fl) : x <> NaN -> y <> NaN -> Series.max2 x y <> NaN.
Proof. unfold Series.max2. destruct (flt x y); auto. Qed.

Lemma fold_min_le (l : list fl) (x : fl) :
  x <> NaN -> Forall (fun y => y <> NaN) l ->
  fle (fold_left Series.min2 l x) x = true.
Proof.
  intros Hx Hl. revert x Hx. induction Hl as [|y rest Hy _ IH]; intros x Hx.
  - apply fle_refl. exact Hx.
  - cbn [fold_left].
    apply (fle_trans _ (Series.min2 x y)).
    + apply IH. apply min2_not_nan; assumption.
    + unfold Series.min2. destruct (flt y x) eqn:E.
      * apply flt_fle. exact E.
      * apply fle_refl. exact Hx.
Qed.

Lemma fold_max_ge (l : list fl) (x : fl) :
  x <> NaN -> Forall (fun y => y <> NaN) l ->
  fle x (fold_left Series.max2 l x) = true.
Proof.
  intros Hx Hl. revert x Hx. induction Hl as [|y rest Hy _ IH]; intros x Hx.
  - apply fle_refl. exact Hx.
  - cbn [fold_left].
    apply (fle_trans _ (Series.max2 x y)).
    + unfold Series.max2. destruct (flt x y) eqn:E.
      * apply flt_fle. exact E.
      * apply fle_refl. exact Hx.
    + apply IH. apply max2_not_nan; assumption.
Qed.

Lemma times_100_monotone (a b : fl) :
  fle a b = true -> fle (a * fz 100) (b * fz 100) = true.
Proof.
  destruct a as [p| | |], b as [q| | |]; simpl; intros H;
    try discriminate; try reflexivity.
  rewrite negb_true_iff in *. apply Qltb_ge in H. apply Qltb_ge.
  change (inject_Z 100) with 100. lra.
Qed.

(** X17: when there is at least one daily return, [Worst_Day] is not
    above [Best_Day] (and neither is NaN). *)
Theorem worst_day_below_best_day (h : list History.row) (m : risk_metrics) :
  calculate_risk_metrics (Some h) = Py.Returned (Some m) ->
  daily_returns_of h <> [] ->
  fle (Worst_Day m) (Best_Day m) = true.
Proof.
  intros H Hne. destruct (risk_metrics_fields h m H) as [_ [Hworst Hbest]].
  rewrite Hworst, Hbest. clear Hworst Hbest H.
  apply times_100_monotone.
  set (dr := daily_returns_of h) in *.
  assert (Hdr : Series.dropna dr = dr).
  { unfold dr, daily_returns_of, Series.dropna.
    induction (Series.pct_change _) as [|y l IH]; [reflexivity|].
    cbn [List.filter]. destruct (notna y) eqn:E; [|exact IH].
    cbn [List.filter]. rewrite E. f_equal. exact IH. }
  pose proof (dropna_not_nan dr) as Hnn. rewrite Hdr in Hnn.
  unfold Series.min, Series.max. rewrite Hdr.
  destruct dr as [|y l]; [congruence|].
  apply List.Forall_cons_iff in Hnn as [Hy Hl].
  apply (fle_trans _ y); [apply fold_min_le|apply fold_max_ge]; assumption.
Qed.

Lemma worst_day_below_best_day_witness :
  exists m,
    calculate_risk_metrics (Some (pl_history 20394%Z [1; 3; 2]%Z))
    = Py.Returned (Some m)
    /\ fle (Worst_Day m) (Best_Day m) = true.
Proof.
  eexists. split; [reflexivity|].
  apply (worst_day_below_best_day (pl_history 20394%Z [1; 3; 2]%Z) _ eq_refl).
  vm_compute. discriminate.
Defined.

(** X18: a history with a single snapshot has no daily return.  The
    method still returns: the total return is that snapshot's
    percentage, and the annualised return, the volatility, the Sharpe
    ratio, the best and worst day and the share of positive days are
    all NaN. *)
Theorem risk_metrics_of_single_snapshot (r : History.row) :
  exists m,
    calculate_risk_metrics (Some [r]) = Py.Returned (Some m)
    /\ Total_Return m = History.Total_PL_Percentage r
    /\ Annualized_Return m = NaN
    /\ Volatility m = NaN
    /\ Sharpe_Ratio m = NaN
    /\ Best_Day m = NaN
    /\ Worst_Day m = NaN
    /\ Positive_Days m = NaN.
Proof.
  eexists. split; [reflexivity|]. repeat split; reflexivity.
Qed.

End RiskRanges.

Section DrawdownFloor.

Import PortfolioAnalyzer Spec.

Lemma dd_range (c m : Q) :
  0 < m -> 0 <= c -> c <= m ->
  exists d, dd (Fin c) (Fin m) = Fin d /\ -100 <= d <= 0.
Proof.
  intros Hm Hc Hcm. unfold dd. cbn [fsub fneg fadd].
  rewrite fdiv_fin by lra. cbn [fmul fz].
  eexists. split; [reflexivity|].
  assert (Hk : 0 < / m) by (apply Qinv_lt_0_compat; exact Hm).
  change (inject_Z 100) with 100. unfold Qdiv.
  set (k := / m) in *.
  assert (Hkm : m * k == 1) by (unfold k; field; lra).
  assert (Hck : 0 <= c * k) by nra.
  assert (Hck' : c * k <= m * k) by nra. rewrite Hkm in Hck'.
  split.
  - assert (E : (c + - m) * k * 100 == (c * k - m * k) * 100) by ring.
    rewrite E, Hkm. lra.
  - assert (E : (c + - m) * k * 100 == (c * k - m * k) * 100) by ring.
    rewrite E, Hkm. lra.
Qed.

(** The drawdown entries behind the first one when no factor is
    negative. *)
Lemma drawdown_tail_range (fs : list Q) (a m : Q) :
  Forall (fun x => 0 <= x) fs -> 0 <= a -> 0 < m ->
  Forall drawdown_range
    (zip_with dd (Series.cumprod_from (Fin a) (List.map Fin fs))
       (Series.expanding_max_from (Some (Fin m))
          (Series.cumprod_from (Fin a) (List.map Fin fs)))).
Proof.
  intros Hfs. revert a m. induction Hfs as [|x rest Hx _ IH]; intros a m Ha Hm.
  - constructor.
  - cbn [List.map Series.cumprod_from isnan fmul Series.expanding_max_from].
    destruct (max2_fin m (a * x)) as [m' [Hmax [Hm1 [Hm2 _]]]].
    rewrite !Hmax. cbn [default from_option zip_with]. unfold id.
    assert (Hax : 0 <= a * x) by nra.
    destruct (dd_range (a * x) m') as [d [Hd Hrange]]; [lra|exact Hax|exact Hm2|].
    rewrite Hd. constructor; [exact Hrange|]. apply IH; [exact Hax|lra].
Qed.

Lemma fold_min_member (l : list fl) (x : fl) :
  In (fold_left Series.min2 l x) (x :: l).
Proof.
  revert x. induction l as [|y rest IH]; intros x; [left; reflexivity|].
  cbn [fold_left]. destruct (IH (Series.min2 x y)) as [H|H].
  - rewrite <- H. unfold Series.min2. destruct (flt y x);
      [right; left; reflexivity|left; reflexivity].
  - right. right. exact H.
Qed.

Lemma factors_nonneg (h : list History.row) :
  Forall (fun r => not_below_minus_100 (History.Total_PL_Percentage r)) h ->
  exists fs,
    List.map (fun r => (Fin 1 + History.Total_PL_Percentage r / fz 100)%fl) h
    = List.map Fin fs
    /\ Forall (fun x => 0 <= x) fs.
Proof.
  induction 1 as [|r rest Hr _ [fs [Hfs Hnn]]].
  - exists []. split; [reflexivity|constructor].
  - destruct (History.Total_PL_Percentage r) as [p| | |] eqn:E;
      cbn [not_below_minus_100] in Hr; try contradiction.
    exists ((1 + p / inject_Z 100) :: fs). split.
    + cbn [List.map]. rewrite Hfs, E. reflexivity.
    + constructor; [|exact Hnn]. change (inject_Z 100) with 100.
      assert (Heq : 1 + p / 100 == (100 + p) / 100) by field.
      rewrite Heq. apply Qle_shift_div_l; lra.
Qed.

(** X19: for a history whose percentages are finite and never below
    -100 (no snapshot is worth less than nothing) and whose first
    snapshot is above -100, the maximum drawdown is a finite value
    between -100 and 0. *)
Theorem max_drawdown_floor (r0 : History.row) (rest : list History.row) :
  Forall (fun r => not_below_minus_100 (History.Total_PL_Percentage r)) (r0 :: rest) ->
  flt (fz (-100)) (History.Total_PL_Percentage r0) = true ->
  drawdown_range (calculate_max_drawdown (Some (r0 :: rest))).
Proof.
  intros Hall Hfirst.
  apply List.Forall_cons_iff in Hall as [Hr0 Hrest].
  destruct (factors_nonneg rest Hrest) as [fs [Hfs Hnn]].
  destruct (History.Total_PL_Percentage r0) as [p0| | |] eqn:E0;
    cbn [not_below_minus_100] in Hr0; try contradiction.
  apply flt_fin in Hfirst. change (inject_Z (-100)) with (-100) in Hfirst.
  unfold calculate_max_drawdown, drawdown, running_max, cumulative,
    Series.cumprod, Series.expanding_max.
  cbn [List.map]. rewrite Hfs, E0.
  change (Fin 1 + Fin p0 / fz 100)%fl with (Fin (1 + p0 / 100)).
  cbn [Series.cumprod_from isnan fmul Series.expanding_max_from
       default from_option zip_with]. unfold id.
  set (c0 := 1 * (1 + p0 / 100)).
  assert (Hc0 : 0 < c0).
  { unfold c0. assert (Heq : 1 * (1 + p0 / 100) == (100 + p0) / 100) by field.
    rewrite Heq. apply Qlt_shift_div_l; lra. }
  destruct (dd_range c0 c0) as [d0 [Hd0 Hrange0]]; [exact Hc0|lra|lra|].
  pose proof (drawdown_tail_range fs c0 c0 Hnn ltac:(lra) Hc0) as Htail.
  rewrite Hd0.
  assert (Hall : Forall drawdown_range
            (Fin d0 :: zip_with dd (Series.cumprod_from (Fin c0) (List.map Fin fs))
               (Series.expanding_max_from (Some (Fin c0))
                  (Series.cumprod_from (Fin c0) (List.map Fin fs)))))
    by (constructor; [exact Hrange0|exact Htail]).
  unfold Series.min.
  assert (Hdrop : forall l, Forall drawdown_range l -> Series.dropna l = l).
  { induction 1 as [|y l Hy _ IHl]; [reflexivity|].
    unfold Series.dropna in *. cbn [List.filter].
    destruct y; cbn [drawdown_range] in Hy; try contradiction.
    cbn [notna isnan negb]. rewrite IHl. reflexivity. }
  rewrite (Hdrop _ Hall).
  rewrite List.Forall_forall in Hall. apply Hall. apply fold_min_member.
Qed.

Lemma max_drawdown_floor_witness :
  drawdown_range
    (calculate_max_drawdown (Some (pl_history 20394%Z [10; -100; 20]%Z))).
Proof.
  apply (max_drawdown_floor
           (hd (snapshot 0%Z 100 100) (pl_history 20394%Z [10; -100; 20]%Z))
           (tl (pl_history 20394%Z [10; -100; 20]%Z))).
  - repeat constructor; vm_compute; discriminate.
  - reflexivity.
Defined.

(** A snapshot at -100% after a gain is a drawdown of exactly -100. *)
Example max_drawdown_of_total_loss :
  feq (calculate_max_drawdown (Some (pl_history 20394%Z [10; -100; 20]%Z)))
      (Fin (-100)).
Proof. vm_compute. reflexivity. Qed.

End DrawdownFloor.

Section AssumedGrowth.

Import Portfolio PortfolioAnalyzer Spec.

(** X20: in [main], a row of the holdings sheet whose [Total_Investment]
    is its purchase price times its quantity (finite and not zero) gets
    a percentage of 5 in the exact arithmetic of this development,
    whatever the stock: the analysis does not look at market prices. *)
Theorem assumed_growth_is_five_percent (r : position * fl) (pp q ti : Q) :
  Purchase_Price (fst r) = Fin pp ->
  Quantity (fst r) = Fin q ->
  snd r = Fin ti ->
  ti == pp * q ->
  ~ ti == 0 ->
  feq (PL_Percentage (assume_growth r)) (fz 5).
Proof.
  intros Hpp Hq Hti Heq Hnz. unfold assume_growth. cbn [PL_Percentage].
  rewrite Hpp, Hq, Hti. cbn [fmul fsub fneg fadd].
  rewrite fdiv_fin by exact Hnz. cbn [fmul fz feq].
  change (inject_Z 100) with 100. change (inject_Z 5) with 5.
  rewrite Heq. rewrite Heq in Hnz. field.
  split; intros Hz; apply Hnz; rewrite Hz; ring.
Qed.

Lemma assumed_growth_is_five_percent_witness :
  feq (PL_Percentage (assume_growth (scenario_position "INFY" 1500 50, fz 75000)))
      (fz 5).
Proof.
  apply (assumed_growth_is_five_percent
           (scenario_position "INFY" 1500 50, fz 75000) 1500 50 75000);
    try reflexivity.
  unfold Qeq. simpl. lia.
Defined.

End AssumedGrowth.
